(** * Code-Guardian operational scripts: a shallow embedding

    Two scripts are modelled:
    - [scripts/performance-dashboard-server.py], the Flask dashboard that reads
      [performance/monitor_state.json] and [performance/alerts.log]
      (module [Dashboard]), together with the status policy of its page
      script (module [Page]);
    - [scripts/github-api-setup.py], the branch-protection configurator
      (module [Configurator]).

    Library calls whose code is not part of the repository (the JSON decoder,
    [datetime.fromisoformat], the HTTP session, the subprocess runner) are
    represented by what they hand back to the scripts. *)

From Stdlib Require Import ZArith List String Ascii Bool Lia Floats.
Import ListNotations.
Set Warnings "-register-all,-inexact-float".
Open Scope string_scope.
Open Scope Z_scope.

(** ** Python strings *)

Module Py.

(** [str.isspace] on the ASCII range: TAB, LF, VT, FF, CR, the four
    separators 0x1C-0x1F and the space.  Text is modelled as ASCII. *)
Definition is_space (c : ascii) : bool :=
  let n := nat_of_ascii c in
  ((9 <=? n) && (n <=? 13) || (28 <=? n) && (n <=? 32))%nat.

Fixpoint lstrip (s : string) : string :=
  match s with
  | String c r => if is_space c then lstrip r else s
  | EmptyString => EmptyString
  end.

(** Drops the trailing white space: a character is kept when something
    that is kept follows it, or when it is not white space itself. *)
Fixpoint rstrip (s : string) : string :=
  match s with
  | EmptyString => EmptyString
  | String c r =>
      match rstrip r with
      | EmptyString => if is_space c then EmptyString else String c EmptyString
      | String _ _ as r' => String c r'
      end
  end.

(** [s.strip()] *)
Definition strip (s : string) : string := rstrip (lstrip s).

(** [s.lower()] on the ASCII range. *)
Definition lower_char (c : ascii) : ascii :=
  let n := nat_of_ascii c in
  if ((65 <=? n) && (n <=? 90))%nat then ascii_of_nat (n + 32) else c.

Fixpoint lower (s : string) : string :=
  match s with
  | EmptyString => EmptyString
  | String c r => String (lower_char c) (lower r)
  end.

(** [s.replace(old, new)] for a one-character [old]. *)
Fixpoint replace_char (old : ascii) (new : string) (s : string) : string :=
  match s with
  | EmptyString => EmptyString
  | String c r =>
      if Ascii.eqb c old then new ++ replace_char old new r
      else String c (replace_char old new r)
  end.

(** [x in xs] for a list of strings. *)
Definition str_in (x : string) (xs : list string) : bool :=
  existsb (String.eqb x) xs.

(** Exceptions the scripts can meet.  [KeyboardInterrupt] is the only one
    that does not derive from [Exception]; [SystemExit] is not listed, it is
    an outcome of its own wherever it can occur. *)
Inductive exn :=
| AttributeError | TypeError | KeyError | ValueError | IndexError
| EOFError | OSError | KeyboardInterrupt.

Definition is_Exception (e : exn) : bool :=
  match e with KeyboardInterrupt => false | _ => true end.

(** A computation that returns or raises. *)
Definition res (A : Type) : Type := exn + A.

Definition bind_res {A B} (m : res A) (k : A -> res B) : res B :=
  match m with inl e => inl e | inr a => k a end.

End Py.

Notation "x <-- m ;; k" := (Py.bind_res m (fun x => k))
  (at level 61, m at next level, right associativity).

(** ** JSON values, as [json.load] and [response.json()] return them *)

Module Json.

Inductive json :=
| JNull                                   (* None *)
| JBool (b : bool)
| JInt (z : Z)
| JFloat (f : float)
| JStr (s : string)
| JArr (items : list json)
| JObj (fields : list (string * json)).   (* a dict, items in order *)

Fixpoint lookup (k : string) (kv : list (string * json)) : option json :=
  match kv with
  | [] => None
  | (k', v) :: r => if String.eqb k k' then Some v else lookup k r
  end.

(** Python truth value. *)
Definition truthy (v : json) : bool :=
  match v with
  | JNull => false
  | JBool b => b
  | JInt z => negb (z =? 0)
  | JFloat f => negb (PrimFloat.eqb f 0)
  | JStr s => negb (String.eqb s "")
  | JArr l => match l with [] => false | _ => true end
  | JObj l => match l with [] => false | _ => true end
  end.

(** [v.get(k, default)]: only a dict has the method. *)
Definition get (v : json) (k : string) (default : json) : Py.exn + json :=
  match v with
  | JObj kv => inr (match lookup k kv with Some x => x | None => default end)
  | _ => inl Py.AttributeError
  end.

(** [v[k]] for a string key. *)
Definition getitem (v : json) (k : string) : Py.exn + json :=
  match v with
  | JObj kv => match lookup k kv with Some x => inr x | None => inl Py.KeyError end
  | _ => inl Py.TypeError
  end.

End Json.
Import Json.

(** ** The page script of the dashboard (JavaScript) *)

Module Page.

Inductive status := good | critical.
Inductive comparison := gt | lt.

(** [function getStatusClass(metric, value, threshold, comparison)];
    the metric name is not used by the body.  Numbers are IEEE doubles. *)
Definition getStatusClass (value threshold : float) (c : comparison) : status :=
  match c with
  | gt => if PrimFloat.ltb threshold value then critical else good
  | lt => if PrimFloat.ltb value threshold then critical else good
  end.

(** [metrics.field || 0]: a missing field, a zero and a NaN all give 0. *)
Definition or_zero (field : option float) : float :=
  match field with
  | None => 0%float
  | Some v => if PrimFloat.eqb v 0 || negb (PrimFloat.eqb v v) then 0%float else v
  end.

(** The JSON object of the latest snapshot, as far as the cards read it. *)
Record metrics := {
  build_time : option float;
  test_time : option float;
  coverage : option float;
  memory_mb : option float
}.

(** The four classes computed at the top of [updateStatusCards]. *)
Definition buildStatus (m : metrics) := getStatusClass (or_zero (build_time m)) 180 gt.
Definition testStatus (m : metrics) := getStatusClass (or_zero (test_time m)) 120 gt.
Definition coverageStatus (m : metrics) := getStatusClass (or_zero (coverage m)) 82 lt.
Definition memoryStatus (m : metrics) := getStatusClass (or_zero (memory_mb m)) 200 gt.

End Page.

(** ** Effects: a state monad with Python's three ways to leave a call *)

Module Eff.

Inductive outcome (A : Type) :=
| Ret (a : A)           (* normal return *)
| Raise (e : Py.exn)    (* an exception propagates *)
| Exit (code : Z).      (* [sys.exit(code)]: SystemExit propagates *)
Arguments Ret {A} a.
Arguments Raise {A} e.
Arguments Exit {A} code.

Definition M (S A : Type) : Type := S -> outcome A * S.

Section Ops.
Context {S : Type}.

Definition ret {A} (a : A) : M S A := fun s => (Ret a, s).

Definition bind {A B} (m : M S A) (k : A -> M S B) : M S B :=
  fun s =>
    match m s with
    | (Ret a, s') => k a s'
    | (Raise e, s') => (Raise e, s')
    | (Exit c, s') => (Exit c, s')
    end.

Definition raise {A} (e : Py.exn) : M S A := fun s => (Raise e, s).

Definition sys_exit {A} (code : Z) : M S A := fun s => (Exit code, s).

Definition lift {A} (r : Py.res A) : M S A :=
  match r with inl e => raise e | inr a => ret a end.

Definition gets {A} (f : S -> A) : M S A := fun s => (Ret (f s), s).

Definition modify (f : S -> S) : M S unit := fun s => (Ret tt, f s).

(** [try: m except Exception: h]: SystemExit and KeyboardInterrupt pass. *)
Definition try_except {A} (m : M S A) (h : Py.exn -> M S A) : M S A :=
  fun s =>
    match m s with
    | (Raise e, s') => if Py.is_Exception e then h e s' else (Raise e, s')
    | r => r
    end.

End Ops.

End Eff.

Notation "x <- m ;; k" := (Eff.bind m (fun x => k))
  (at level 61, m at next level, right associativity).
Notation "m ;;; k" := (Eff.bind m (fun _ => k))
  (at level 61, right associativity).

(** ** The dashboard server *)

Module Dashboard.
Import Eff.

(** *** Time stamps *)

(** A [datetime]: its calendar fields counted in microseconds since
    0001-01-01T00:00:00, and the UTC offset (microseconds) when it has one. *)
Inductive datetime :=
| Naive (us : Z)
| Aware (us : Z) (utcoffset : Z).

Definition HOUR_US : Z := 3600 * 1000000.

(** [entry_time >= cutoff_time] with a naive [cutoff_time]: comparing an
    aware with a naive datetime raises TypeError. *)
Definition ge_naive (entry_time : datetime) (cutoff_time : Z) : Py.res bool :=
  match entry_time with
  | Naive t => inr (cutoff_time <=? t)
  | Aware _ _ => inl Py.TypeError
  end.

(** One shape that [datetime.fromisoformat] reads in every Python 3 release
    that has it, [YYYY-MM-DD?HH:MM:SS] with an optional [+HH:MM] or [-HH:MM];
    used where a concrete decoder is needed.  The library reads more shapes
    than this one. *)
Definition digit (c : ascii) : option Z :=
  let n := nat_of_ascii c in
  if ((48 <=? n) && (n <=? 57))%nat then Some (Z.of_nat (n - 48)) else None.

Fixpoint digits (n : nat) (acc : Z) (s : string) : option (Z * string) :=
  match n with
  | O => Some (acc, s)
  | S n' =>
      match s with
      | String c r =>
          match digit c with
          | Some d => digits n' (10 * acc + d) r
          | None => None
          end
      | EmptyString => None
      end
  end.

Definition expect (c : ascii) (s : string) : option string :=
  match s with
  | String c' r => if Ascii.eqb c c' then Some r else None
  | EmptyString => None
  end.

Definition is_leap (y : Z) : bool :=
  (y mod 4 =? 0) && (negb (y mod 100 =? 0) || (y mod 400 =? 0)).

Definition days_in_month (y m : Z) : Z :=
  if m =? 2 then (if is_leap y then 29 else 28)
  else if (m =? 4) || (m =? 6) || (m =? 9) || (m =? 11) then 30 else 31.

Definition days_before_year (y : Z) : Z :=
  (y - 1) * 365 + (y - 1) / 4 - (y - 1) / 100 + (y - 1) / 400.

Definition days_before_month (y m : Z) : Z :=
  nth (Z.to_nat (m - 1)) [0; 31; 59; 90; 120; 151; 181; 212; 243; 273; 304; 334] 0
  + (if (2 <? m) && is_leap y then 1 else 0).

Definition ymd2ord (y m d : Z) : Z :=
  days_before_year y + days_before_month y m + d.

Definition opt_bind {A B} (o : option A) (k : A -> option B) : option B :=
  match o with Some a => k a | None => None end.
Local Notation "' p <~ o ;; k" := (opt_bind o (fun p => k))
  (at level 61, p pattern, o at next level, right associativity).

Definition fromisoformat_seconds (s : string) : option datetime :=
  ' (y, s) <~ digits 4 0 s ;; ' s <~ expect "-" s ;;
  ' (m, s) <~ digits 2 0 s ;; ' s <~ expect "-" s ;;
  ' (d, s) <~ digits 2 0 s ;;
  ' s <~ (match s with String _ r => Some r | EmptyString => None end) ;;
  ' (hh, s) <~ digits 2 0 s ;; ' s <~ expect ":" s ;;
  ' (mi, s) <~ digits 2 0 s ;; ' s <~ expect ":" s ;;
  ' (ss, s) <~ digits 2 0 s ;;
  if (1 <=? y) && (1 <=? m) && (m <=? 12) && (1 <=? d) && (d <=? days_in_month y m)
     && (hh <? 24) && (mi <? 60) && (ss <? 60)
  then
    let us := (((ymd2ord y m d - 1) * 24 + hh) * 3600 + mi * 60 + ss) * 1000000 in
    match s with
    | EmptyString => Some (Naive us)
    | String sign s =>
        ' (oh, s) <~ digits 2 0 s ;; ' s <~ expect ":" s ;;
        ' (om, s) <~ digits 2 0 s ;;
        let off := (oh * 60 + om) * 60 * 1000000 in
        match s with
        | EmptyString =>
            if (oh <? 24) && (om <? 60) then
              if Ascii.eqb sign "+" then Some (Aware us off)
              else if Ascii.eqb sign "-" then Some (Aware us (- off))
              else None
            else None
        | _ => None
        end
    end
  else None.

(** *** Files and the server's memory *)

(** The state file, by what [STATE_FILE.exists()] and [json.load] make of it. *)
Inductive state_file :=
| Absent                 (* no such file *)
| Unloadable             (* it exists; opening or decoding it raises *)
| Holds (j : json).      (* it exists and decodes to [j] *)

(** [performance/alerts.log] *)
Inductive text_file :=
| NoFile
| Unreadable             (* it exists; opening or reading it raises *)
| Text (s : string).

Inductive node := Missing | IsDir | IsFile.

Record fs := {
  STATE_FILE : state_file;
  alerts_log : text_file;
  PERFORMANCE_DIR : node;
  DASHBOARD_DIR : node
}.

(** What [subprocess.run(..., capture_output=True, text=True, timeout=300)]
    hands back: a completed process, or one of the exceptions it raises. *)
Inductive run_result :=
| Completed (returncode : Z) (stdout stderr : string)
| TimeoutExpired
| Failed (str_e : string).       (* any other exception [e], with [str(e)] *)

Record world := {
  files : fs;
  data : json;          (* [perf_data.data] *)
  now : Z               (* [datetime.now()], naive local time *)
}.

Definition set_files (f : fs) (w : world) : world :=
  {| files := f; data := data w; now := now w |}.
Definition set_data (j : json) (w : world) : world :=
  {| files := files w; data := j; now := now w |}.

Definition default_data : json :=
  JObj [("consecutive_failures", JInt 0);
        ("last_successful_run", JStr "");
        ("metrics_history", JArr [])].

(** [STATE_FILE.exists()] *)
Definition state_exists : M world bool :=
  gets (fun w => match STATE_FILE (files w) with Absent => false | _ => true end).

(** [with open(STATE_FILE) as f: json.load(f)] *)
Definition state_load : M world json :=
  fun w => match STATE_FILE (files w) with
           | Holds j => (Ret j, w)
           | Unloadable => (Raise Py.ValueError, w)
           | Absent => (Raise Py.OSError, w)
           end.

(** [PerformanceData.load_data] *)
Definition load_data : M world unit :=
  try_except
    (e <- state_exists ;;
     if e then j <- state_load ;; modify (set_data j)
     else modify (set_data default_data))
    (fun _ => modify (set_data default_data)).

(** [refresh_data]: the first [n] rounds of the background loop. *)
Fixpoint refresh_data (n : nat) : M world unit :=
  match n with
  | O => ret tt
  | S n' => load_data ;;; refresh_data n'
  end.

(** [v[-1]] *)
Definition last_item (v : json) : Py.res json :=
  match v with
  | JArr l => match rev l with x :: _ => inr x | [] => inl Py.IndexError end
  | JStr s => match rev (list_ascii_of_string s) with
              | c :: _ => inr (JStr (String c ""))
              | [] => inl Py.IndexError
              end
  | JObj _ => inl Py.KeyError
  | _ => inl Py.TypeError
  end.

(** [PerformanceData.get_latest_metrics] *)
Definition get_latest_metrics (data : json) : Py.res json :=
  h <-- get data "metrics_history" JNull ;;
  if truthy h then
    h' <-- getitem data "metrics_history" ;; last_item h'
  else inr (JObj []).

(** [for entry in v]: the items of a list, the characters of a string, the
    keys of a dict; anything else is not iterable. *)
Definition iter (v : json) : Py.res (list json) :=
  match v with
  | JArr l => inr l
  | JStr s => inr (map (fun c => JStr (String c "")) (list_ascii_of_string s))
  | JObj kv => inr (map (fun p => JStr (fst p)) kv)
  | _ => inl Py.TypeError
  end.

Section Trend.
Variable fromisoformat : string -> option datetime.   (* None: ValueError *)

(** The body of the [try] in [get_trend_data]: the point appended, if any. *)
Definition try_entry (cutoff_time : Z) (metric : string) (entry : json)
  : Py.res (option json) :=
  ts <-- get entry "timestamp" (JStr "") ;;
  match ts with
  | JStr s =>
      match fromisoformat (Py.replace_char "Z" "+00:00" s) with
      | None => inl Py.ValueError
      | Some entry_time =>
          b <-- ge_naive entry_time cutoff_time ;;
          if b then
            t <-- getitem entry "timestamp" ;;
            v <-- get entry metric (JInt 0) ;;
            inr (Some (JObj [("timestamp", t); ("value", v)]))
          else inr None
      end
  | _ => inl Py.AttributeError       (* no [replace] method *)
  end.

(** One round of the loop: [except Exception: continue]. *)
Definition trend_step (cutoff_time : Z) (metric : string) (entry : json) : list json :=
  match try_entry cutoff_time metric entry with
  | inr (Some point) => [point]
  | _ => []
  end.

(** [PerformanceData.get_trend_data(metric, hours)] at time [now]. *)
Definition get_trend_data (now : Z) (data : json) (metric : string) (hours : Z)
  : Py.res (list json) :=
  let cutoff_time := now - hours * HOUR_US in
  h <-- get data "metrics_history" (JArr []) ;;
  entries <-- iter h ;;
  inr (flat_map (trend_step cutoff_time metric) entries).

End Trend.

(** *** The alert log *)

Definition LF : ascii := ascii_of_nat 10.
Definition CR : ascii := ascii_of_nat 13.

(** Text mode with the default [newline=None]: CR LF and a lone CR are
    read as LF. *)
Fixpoint universal_newlines (s : string) : string :=
  match s with
  | EmptyString => EmptyString
  | String c r =>
      if Ascii.eqb c CR then
        match r with
        | String c' r' =>
            if Ascii.eqb c' LF then String LF (universal_newlines r')
            else String LF (universal_newlines r)
        | EmptyString => String LF EmptyString
        end
      else String c (universal_newlines r)
  end.

(** The lines of a text, each with its line feed; the last one may lack it. *)
Fixpoint split_keepends (s : string) : list string :=
  match s with
  | EmptyString => []
  | String c r =>
      if Ascii.eqb c LF then String c "" :: split_keepends r
      else match split_keepends r with
           | [] => [String c ""]
           | l :: ls => String c l :: ls
           end
  end.

(** [f.readlines()] *)
Definition readlines (s : string) : list string :=
  split_keepends (universal_newlines s).

(** [l[-n:]] for a positive [n]. *)
Definition last_n {A} (n : nat) (l : list A) : list A :=
  skipn (List.length l - n) l.

Definition nonblank (line : string) : bool :=
  negb (String.eqb (Py.strip line) "").

(** The two assignments to [alerts] inside the [with] of [get_metrics]. *)
Definition tail_alerts (lines : list string) : list string :=
  let alerts := last_n 10 lines in
  map Py.strip (filter nonblank alerts).

(** The [try] block around the alert file, with [except Exception: pass]. *)
Definition read_alerts (f : fs) : list string :=
  match alerts_log f with
  | NoFile => []
  | Unreadable => []
  | Text s => tail_alerts (readlines s)
  end.

(** The last [n] non-empty lines of a text, stripped: what the interface
    description says of the alert log. *)
Definition last_nonempty_lines (n : nat) (lines : list string) : list string :=
  last_n n (map Py.strip (filter nonblank lines)).

(** *** Request handlers *)

Section Handlers.
Variable fromisoformat : string -> option datetime.
(** The monitoring script, [./scripts/continuous-monitor.sh check]: what it
    does to the files and what [subprocess.run] reports. *)
Variable monitor : fs -> fs * run_result.

(** [render_template_string(DASHBOARD_HTML)]: the page has no parameters. *)
Definition dashboard : M world unit := ret tt.

Definition trend (metric : string) : M world json :=
  fun w =>
    lift (l <-- get_trend_data fromisoformat (now w) (data w) metric 24 ;;
          inr (JArr l)) w.

(** [get_metrics]; the value is the body handed to [jsonify]. *)
Definition get_metrics : M world json :=
  latest <- (fun w => lift (get_latest_metrics (data w)) w) ;;
  build_time <- trend "build_time" ;;
  test_time <- trend "test_time" ;;
  coverage <- trend "coverage" ;;
  memory_mb <- trend "memory_mb" ;;
  alerts <- gets (fun w => read_alerts (files w)) ;;
  status <- (fun w => lift (get (data w) "consecutive_failures" (JInt 0)) w) ;;
  ret (JObj [("latest", latest);
             ("trends", JObj [("build_time", build_time);
                              ("test_time", test_time);
                              ("coverage", coverage);
                              ("memory_mb", memory_mb)]);
             ("alerts", JArr (map JStr alerts));
             ("status", status)]).

Definition subprocess_run : M world run_result :=
  fun w => let (f, r) := monitor (files w) in (Ret r, set_files f w).

Definition message (m : string) : json := JObj [("message", JStr m)].

(** [run_check] *)
Definition run_check : M world json :=
  result <- subprocess_run ;;
  match result with
  | Completed returncode _ stderr =>
      if returncode =? 0 then
        ret (message "Performance check completed successfully!")
      else
        ret (message ("Performance check failed: " ++ stderr))
  | TimeoutExpired => ret (message "Performance check timed out")
  | Failed str_e => ret (message ("Error running check: " ++ str_e))
  end.

(** [path.mkdir(exist_ok=True)] on one of the two directories. *)
Definition mkdir_exist_ok (get : fs -> node) (set : fs -> fs) : M world unit :=
  fun w => match get (files w) with
           | IsFile => (Raise Py.OSError, w)
           | IsDir => (Ret tt, w)
           | Missing => (Ret tt, set_files (set (files w)) w)
           end.

Definition make_performance_dir (f : fs) : fs :=
  {| STATE_FILE := STATE_FILE f; alerts_log := alerts_log f;
     PERFORMANCE_DIR := IsDir; DASHBOARD_DIR := DASHBOARD_DIR f |}.
Definition make_dashboard_dir (f : fs) : fs :=
  {| STATE_FILE := STATE_FILE f; alerts_log := alerts_log f;
     PERFORMANCE_DIR := PERFORMANCE_DIR f; DASHBOARD_DIR := IsDir |}.

(** The start of the script: the global [perf_data = PerformanceData()]
    and the two directories made under [__main__]. *)
Definition startup : M world unit :=
  modify (set_data (JObj [])) ;;;
  load_data ;;;
  mkdir_exist_ok PERFORMANCE_DIR make_performance_dir ;;;
  mkdir_exist_ok DASHBOARD_DIR make_dashboard_dir.

(** Everything the server runs. *)
Inductive operation :=
| OpStartup
| OpRefresh (rounds : nat)
| OpIndex
| OpMetrics
| OpRunCheck.

Definition run (op : operation) : M world unit :=
  match op with
  | OpStartup => startup
  | OpRefresh n => refresh_data n
  | OpIndex => dashboard
  | OpMetrics => get_metrics ;;; ret tt
  | OpRunCheck => run_check ;;; ret tt
  end.

End Handlers.

(** *** The trend as the interface description words it *)

(** The instant a time stamp denotes, for a server whose local time is
    [local_offset] ahead of UTC. *)
Definition instant (local_offset : Z) (t : datetime) : Z :=
  match t with
  | Naive us => us - local_offset
  | Aware us off => us - off
  end.

Section TrendSpec.
Variable fromisoformat : string -> option datetime.
Variable local_offset : Z.

(** An entry is kept when its time stamp parses and lies in the trailing
    window, not before its start and not after the time of the call; it is
    projected to its time stamp and the metric. *)
Definition spec_entry (now : Z) (hours : Z) (metric : string) (entry : json)
  : list json :=
  match entry with
  | JObj kv =>
      match lookup "timestamp" kv with
      | Some (JStr s) =>
          match fromisoformat (Py.replace_char "Z" "+00:00" s) with
          | Some t =>
              if ((now - local_offset) - hours * HOUR_US <=? instant local_offset t)
                 && (instant local_offset t <=? now - local_offset)
              then [JObj [("timestamp", JStr s);
                          ("value", match lookup metric kv with
                                    | Some v => v
                                    | None => JInt 0
                                    end)]]
              else []
          | None => []
          end
      | _ => []
      end
  | _ => []
  end.

Definition spec_trend (now : Z) (hours : Z) (metric : string) (history : list json)
  : list json :=
  flat_map (spec_entry now hours metric) history.

End TrendSpec.

End Dashboard.

(** ** The branch-protection configurator *)

Module Configurator.
Import Eff.

Record BranchProtectionConfig := {
  name : string;
  required_status_checks : list string;
  required_approving_review_count : Z;
  dismiss_stale_reviews : bool;
  require_code_owner_reviews : bool;
  require_last_push_approval : bool;
  required_linear_history : bool;
  allow_force_pushes : bool;
  allow_deletions : bool;
  required_conversation_resolution : bool;
  strict_status_checks : bool
}.

(** The methods [_make_request] knows; the script passes GET and PUT. *)
Inductive method := GET | PUT | POST | DELETE.

Record request := {
  meth : method;
  endpoint : string;            (* after [/repos/{owner}/{name}/] *)
  payload : option json         (* the [json=] argument *)
}.

Record response := {
  status_code : Z;
  json_body : option json;      (* [response.json()]; None: it raises *)
  text : string
}.

(** What the session call does: it returns, or raises a RequestException. *)
Inductive reply :=
| Response (r : response)
| RequestException.

(** [subprocess.run(["gh", "auth", "token"], ...)] *)
Inductive gh_result :=
| GhNotFound                               (* FileNotFoundError *)
| GhOSError                                (* another OSError *)
| GhDone (returncode : Z) (stdout : string).

(** [input(...)] *)
Inductive input_result :=
| Line (s : string)
| EndOfFile                                (* EOFError *)
| Interrupt.                               (* KeyboardInterrupt *)

(** What the script does to the outside, in order.  A printed line is its
    text with [{}] for each formatted value (the pictographs that open the
    messages are left out). *)
Inductive event :=
| Printed (text : string) (args : list json)
| Sent (r : request)
| Prompted
| Slept (seconds : Z).

Definition state := list event.

Fixpoint sent (t : list event) : list request :=
  match t with
  | [] => []
  | Sent r :: t' => r :: sent t'
  | _ :: t' => sent t'
  end.

(** The outside of one run. *)
Record environment := {
  GITHUB_TOKEN : option string;                 (* [os.getenv] *)
  gh_auth_token : gh_result;
  api : list request -> request -> reply;       (* earlier requests, this one *)
  stdin : input_result
}.

Definition print (text : string) (args : list json) : M state unit :=
  modify (fun t => (t ++ [Printed text args])%list).

Definition sleep (seconds : Z) : M state unit :=
  modify (fun t => (t ++ [Slept seconds])%list).

Section Run.
Variable env : environment.

(** [GitHubAPIClient._make_request] *)
Definition _make_request (m : method) (endpoint : string) (data : option json)
  : M state response :=
  fun t =>
    let r := {| meth := m; endpoint := endpoint;
                payload := match m with PUT | POST => data | _ => None end |} in
    match api env (sent t) r with
    | Response resp => (Ret resp, (t ++ [Sent r])%list)
    | RequestException =>
        (print "Request failed: {}" [] ;;; sys_exit 1) (t ++ [Sent r])%list
    end.

Definition response_json (r : response) : M state json :=
  match json_body r with
  | Some j => ret j
  | None => raise Py.ValueError
  end.

(** [GitHubAPIClient.get_repository_info] *)
Definition get_repository_info : M state json :=
  response <- _make_request GET "" None ;;
  if status_code response =? 200 then response_json response
  else
    print "Failed to get repository info: {}" [JInt (status_code response)] ;;;
    print "{}" [JStr (text response)] ;;;
    sys_exit 1.

(** [GitHubAPIClient.get_branch_protection]; [JNull] is Python's None. *)
Definition get_branch_protection (branch : string) : M state json :=
  response <- _make_request GET ("branches/" ++ branch ++ "/protection") None ;;
  if status_code response =? 200 then response_json response
  else if status_code response =? 404 then ret JNull
  else
    print "Failed to get branch protection for {}: {}"
          [JStr branch; JInt (status_code response)] ;;;
    ret JNull.

Definition protection_data (branch : string) (config : BranchProtectionConfig) : json :=
  JObj [("required_status_checks",
           JObj [("strict", JBool (strict_status_checks config));
                 ("checks", JArr (map (fun check => JObj [("context", JStr check)])
                                      (required_status_checks config)))]);
        ("enforce_admins", JBool false);
        ("required_pull_request_reviews",
           JObj [("required_approving_review_count",
                    JInt (required_approving_review_count config));
                 ("dismiss_stale_reviews", JBool (dismiss_stale_reviews config));
                 ("require_code_owner_reviews", JBool (require_code_owner_reviews config));
                 ("require_last_push_approval", JBool (require_last_push_approval config))]);
        ("restrictions", JNull);
        ("required_linear_history", JBool (required_linear_history config));
        ("allow_force_pushes", JBool (allow_force_pushes config));
        ("allow_deletions", JBool (allow_deletions config));
        ("block_creations", JBool false);
        ("required_conversation_resolution",
           JBool (required_conversation_resolution config));
        ("lock_branch", JBool false);
        ("allow_fork_syncing", JBool (negb (String.eqb branch "main")))].

(** [GitHubAPIClient.set_branch_protection] *)
Definition set_branch_protection (branch : string) (config : BranchProtectionConfig)
  : M state bool :=
  print "Setting up protection for '{}' branch..." [JStr branch] ;;;
  response <- _make_request PUT ("branches/" ++ branch ++ "/protection")
                            (Some (protection_data branch config)) ;;
  if status_code response =? 200 then
    print "Branch protection configured successfully for '{}'!" [JStr branch] ;;;
    ret true
  else
    print "Failed to configure branch protection for '{}': {}"
          [JStr branch; JInt (status_code response)] ;;;
    print "{}" [JStr (text response)] ;;;
    ret false.

Definition status_in_200_204 (r : response) : bool :=
  (status_code r =? 200) || (status_code r =? 204).

(** [GitHubAPIClient.enable_vulnerability_alerts] *)
Definition enable_vulnerability_alerts : M state bool :=
  response <- _make_request PUT "vulnerability-alerts" None ;;
  ret (status_in_200_204 response).

(** [GitHubAPIClient.enable_automated_security_fixes] *)
Definition enable_automated_security_fixes : M state bool :=
  response <- _make_request PUT "automated-security-fixes" None ;;
  ret (status_in_200_204 response).

(** [get_github_token] *)
Definition get_github_token : M state string :=
  match GITHUB_TOKEN env with
  | Some (String _ _ as token) => ret token
  | _ =>
      match gh_auth_token env with
      | GhDone returncode stdout =>
          if returncode =? 0 then ret (Py.strip stdout)
          else
            print "GitHub token not found. Please set GITHUB_TOKEN environment variable or run 'gh auth login'" [] ;;;
            sys_exit 1
      | GhNotFound =>
          print "GitHub token not found. Please set GITHUB_TOKEN environment variable or run 'gh auth login'" [] ;;;
          sys_exit 1
      | GhOSError => raise Py.OSError
      end
  end.

Definition main_config : BranchProtectionConfig :=
  {| name := "main";
     required_status_checks :=
       ["Test (ubuntu-latest, stable)"; "Test (windows-latest, stable)";
        "Test (macos-latest, stable)"; "Coverage"; "Security Audit";
        "CodeQL / Analyze (rust)"; "CodeQL / Analyze (javascript)"];
     required_approving_review_count := 1;
     dismiss_stale_reviews := true;
     require_code_owner_reviews := true;
     require_last_push_approval := true;
     required_linear_history := true;
     allow_force_pushes := false;
     allow_deletions := false;
     required_conversation_resolution := true;
     strict_status_checks := true |}.

Definition develop_config : BranchProtectionConfig :=
  {| name := "develop";
     required_status_checks :=
       ["Test (ubuntu-latest, stable)"; "Coverage"; "Security Audit"];
     required_approving_review_count := 1;
     dismiss_stale_reviews := true;
     require_code_owner_reviews := false;
     require_last_push_approval := false;
     required_linear_history := false;
     allow_force_pushes := false;
     allow_deletions := false;
     required_conversation_resolution := true;
     strict_status_checks := true |}.

(** [create_branch_configs]: the dict, items in insertion order. *)
Definition create_branch_configs : list (string * BranchProtectionConfig) :=
  [("main", main_config); ("develop", develop_config)].

(** [v[:10]] *)
Definition slice10 (v : json) : Py.res json :=
  match v with
  | JStr s => inr (JStr (substring 0 10 s))
  | JArr l => inr (JArr (firstn 10 l))
  | _ => inl Py.TypeError
  end.

(** [len(v)] *)
Definition len (v : json) : Py.res json :=
  match v with
  | JStr s => inr (JInt (Z.of_nat (String.length s)))
  | JArr l => inr (JInt (Z.of_nat (List.length l)))
  | JObj l => inr (JInt (Z.of_nat (List.length l)))
  | _ => inl Py.TypeError
  end.

(** [print_repository_summary] *)
Definition print_repository_summary : M state unit :=
  print "Repository Information:" [] ;;;
  repo_info <- get_repository_info ;;
  v <- lift (getitem repo_info "full_name") ;;
  print "   Name: {}" [v] ;;;
  v <- lift (getitem repo_info "stargazers_count") ;;
  print "   Stars: {}" [v] ;;;
  v <- lift (getitem repo_info "forks_count") ;;
  print "   Forks: {}" [v] ;;;
  v <- lift (getitem repo_info "default_branch") ;;
  print "   Default branch: {}" [v] ;;;
  v <- lift (getitem repo_info "private") ;;
  print "   Private: {}" [v] ;;;
  v <- lift (c <-- getitem repo_info "created_at" ;; slice10 c) ;;
  print "   Created: {}" [v] ;;;
  print "" [].

(** One round of the loop of [verify_protection_status]. *)
Definition verify_branch (branch : string) : M state unit :=
  protection <- get_branch_protection branch ;;
  if truthy protection then
    checks_count <- lift (rsc <-- get protection "required_status_checks" (JObj []) ;;
                          checks <-- get rsc "checks" (JArr []) ;;
                          len checks) ;;
    review_count <- lift (rpr <-- get protection "required_pull_request_reviews" (JObj []) ;;
                          get rpr "required_approving_review_count" (JInt 0)) ;;
    linear_history <- lift (get protection "required_linear_history" (JBool false)) ;;
    print "   {}: Protected" [JStr branch] ;;;
    print "      - Status checks: {}" [checks_count] ;;;
    print "      - Required reviews: {}" [review_count] ;;;
    print "      - Linear history: {}"
          [JStr (if truthy linear_history then "Yes" else "No")]
  else
    print "   {}: Not protected" [JStr branch].

Fixpoint for_each {A} (l : list A) (body : A -> M state unit) : M state unit :=
  match l with
  | [] => ret tt
  | x :: r => body x ;;; for_each r body
  end.

(** [verify_protection_status] *)
Definition verify_protection_status (branches : list string) : M state unit :=
  print "Current Protection Status:" [] ;;;
  for_each branches verify_branch ;;;
  print "" [].

(** [input(prompt)] *)
Definition input : M state string :=
  fun t =>
    match stdin env with
    | Line s => (Ret s, (t ++ [Prompted])%list)
    | EndOfFile => (Raise Py.EOFError, (t ++ [Prompted])%list)
    | Interrupt => (Raise Py.KeyboardInterrupt, (t ++ [Prompted])%list)
    end.

(** The loop over [branch_configs.items()] in [main]. *)
Fixpoint apply_protection (configs : list (string * BranchProtectionConfig))
  (success_count : Z) : M state Z :=
  match configs with
  | [] => ret success_count
  | (branch, config) :: rest =>
      ok <- set_branch_protection branch config ;;
      success_count <- (if ok : bool then sleep 1 ;;; ret (success_count + 1)
                        else ret success_count) ;;
      print "" [] ;;;
      apply_protection rest success_count
  end.

(** [main], after the confirmation. *)
Definition apply_changes (branch_configs : list (string * BranchProtectionConfig))
  (branches : list string) : M state unit :=
  print "" [] ;;;
  print "Starting branch protection setup..." [] ;;;
  print "" [] ;;;
  success_count <- apply_protection branch_configs 0 ;;
  print "Enabling security features..." [] ;;;
  ok <- enable_vulnerability_alerts ;;
  (if ok : bool then print "Vulnerability alerts enabled" []
   else print "Could not enable vulnerability alerts" []) ;;;
  ok <- enable_automated_security_fixes ;;
  (if ok : bool then print "Automated security fixes enabled" []
   else print "Could not enable automated security fixes" []) ;;;
  print "" [] ;;;
  print "Final verification..." [] ;;;
  verify_protection_status branches ;;;
  print "Setup Summary:" [] ;;;
  print "   Successfully configured: {}/{} branches"
        [JInt success_count; JInt (Z.of_nat (List.length branch_configs))] ;;;
  print "   Security features: Enabled" [] ;;;
  print "" [] ;;;
  (if success_count =? Z.of_nat (List.length branch_configs) then
     print "Branch protection setup completed successfully!" [] ;;;
     print "" [] ;;;
     print "Next steps:" [] ;;;
     print "1. Verify settings in GitHub web interface" [] ;;;
     print "2. Test by creating a PR to main branch" [] ;;;
     print "3. Configure organization-level settings if needed" [] ;;;
     print "4. Import repository ruleset for additional protection" []
   else
     print "Some configurations may have failed. Please check manually." []) ;;;
  print "" [] ;;;
  print "Your repository now has enterprise-grade protection!" [].

(** [main], up to the confirmation. *)
Definition prepare (branches : list string) : M state unit :=
  print "============================================================" [] ;;;
  print "Code-Guardian GitHub Branch Protection Setup" [] ;;;
  print "============================================================" [] ;;;
  print "" [] ;;;
  token <- try_except
             (token <- get_github_token ;;
              print "GitHub authentication verified" [] ;;;
              ret token)
             (fun _ => print "Authentication failed: {}" [] ;;; sys_exit 1) ;;
  print_repository_summary ;;;
  verify_protection_status branches.

(** [main] *)
Definition main : M state unit :=
  let branch_configs := create_branch_configs in
  let branches := map fst branch_configs in
  prepare branches ;;;
  response <- input ;;
  if negb (Py.str_in (Py.lower response) ["y"; "yes"]) then
    print "Setup cancelled by user." [] ;;;
    sys_exit 0
  else apply_changes branch_configs branches.

(** The script run as a program: its exit code and what it did. *)
Definition script : Z * state :=
  match main [] with
  | (Ret _, t) => (0, t)
  | (Exit code, t) => (code, t)
  | (Raise e, t) =>
      if Py.is_Exception e then (1, (t ++ [Printed "Unexpected error: {}" []])%list)
      else (1, (t ++ [Printed "Setup cancelled by user." []])%list)
  end.

End Run.

Definition exit_code (env : environment) : Z := fst (script env).
Definition trace (env : environment) : state := snd (script env).

Definition is_put (e : event) : bool :=
  match e with
  | Sent r => match meth r with PUT => true | _ => false end
  | _ => false
  end.

(** The two ways [get_github_token] finds a token. *)
Definition env_yields_token (env : environment) : bool :=
  match GITHUB_TOKEN env with Some (String _ _) => true | _ => false end.

Definition gh_yields_token (env : environment) : bool :=
  match gh_auth_token env with GhDone rc _ => rc =? 0 | _ => false end.

Definition repo_info_request : request :=
  {| meth := GET; endpoint := ""; payload := None |}.

Definition protection_request (branch : string) : request :=
  {| meth := GET; endpoint := "branches/" ++ branch ++ "/protection";
     payload := None |}.

(** The answer that lets the run go on. *)
Definition confirms (answer : string) : bool :=
  Py.str_in (Py.lower answer) ["y"; "yes"].

(** [m] only adds events to the trace, each of them allowed by [ok]. *)
Definition emits {A} (ok : event -> bool) (m : M state A) : Prop :=
  forall t, exists evs, snd (m t) = (t ++ evs)%list /\ forallb ok evs = true.

(** Events before the confirmation: no PUT and no prompt. *)
Definition preparatory (e : event) : bool :=
  match e with
  | Prompted => false
  | _ => negb (is_put e)
  end.

Definition any_event (e : event) : bool := true.



End Configurator.

(** ** Sample runs of the configurator *)

Module Runs.
Import Configurator.

Definition repo_info : json :=
  JObj [("full_name", JStr "d-oit/code-guardian");
        ("stargazers_count", JInt 12);
        ("forks_count", JInt 3);
        ("default_branch", JStr "main");
        ("private", JBool false);
        ("created_at", JStr "2024-05-01T08:00:00Z")].

Definition ok_response (body : option json) : reply :=
  Response {| status_code := 200; json_body := body; text := "" |}.

Definition not_found : reply :=
  Response {| status_code := 404; json_body := None; text := "Not Found" |}.

(** A repository without protection that accepts every change. *)
Definition willing_api (earlier : list request) (r : request) : reply :=
  match meth r with
  | GET => if String.eqb (endpoint r) "" then ok_response (Some repo_info)
           else not_found
  | _ => ok_response (Some (JObj []))
  end.


Definition run_with (api : list request -> request -> reply) (answer : string)
  : environment :=
  {| GITHUB_TOKEN := Some "ghp_0123456789";
     gh_auth_token := GhNotFound;
     api := api;
     stdin := Line answer |}.


End Runs.

(** ** Concrete inputs used below *)

Module Samples.
Import Dashboard.

(** A text from its lines, each closed by a line feed. *)
Fixpoint unlines (ls : list string) : string :=
  match ls with
  | [] => ""
  | l :: r => l ++ String LF (unlines r)
  end.

(** Ten alerts, then three empty lines. *)
Definition alerts_then_blanks : string :=
  unlines ["CRITICAL: build time 191s"; "WARNING: coverage 82.4%";
           "CRITICAL: memory 212MB"; "WARNING: test time 118s";
           "CRITICAL: coverage 79.0%"; "INFO: check passed";
           "CRITICAL: build time 204s"; "WARNING: memory 198MB";
           "INFO: check passed"; "CRITICAL: test time 131s";
           ""; ""; ""].

Definition fs_with_alerts (s : string) : fs :=
  {| STATE_FILE := Absent; alerts_log := Text s;
     PERFORMANCE_DIR := IsDir; DASHBOARD_DIR := IsDir |}.

(** The naive time a stamp denotes. *)
Definition at_time (s : string) : Z :=
  match fromisoformat_seconds s with
  | Some (Naive us) => us
  | _ => 0
  end.

Definition noon : Z := at_time "2026-11-04T12:00:00".

(** A snapshot taken half an hour before [noon], stamped in UTC. *)
Definition utc_entry : json :=
  JObj [("timestamp", JStr "2026-11-04T11:30:00Z");
        ("build_time", JFloat 95.5);
        ("test_time", JFloat 61);
        ("coverage", JFloat 84.2);
        ("memory_mb", JFloat 143)].

(** The same snapshot with a stamp that has no offset. *)
Definition naive_entry : json :=
  JObj [("timestamp", JStr "2026-11-04T11:30:00");
        ("build_time", JFloat 95.5);
        ("test_time", JFloat 61);
        ("coverage", JFloat 84.2);
        ("memory_mb", JFloat 143)].

(** A snapshot without a coverage figure. *)
Definition partial_entry : json :=
  JObj [("timestamp", JStr "2026-11-04T09:15:00");
        ("build_time", JFloat 101)].

Definition state_with (history : list json) : json :=
  JObj [("consecutive_failures", JInt 0);
        ("last_successful_run", JStr "2026-11-04T11:30:00Z");
        ("metrics_history", JArr history)].

Definition empty_fs : fs :=
  {| STATE_FILE := Absent; alerts_log := NoFile;
     PERFORMANCE_DIR := Missing; DASHBOARD_DIR := Missing |}.

Definition fresh_world : world :=
  {| files := empty_fs; data := JObj []; now := noon |}.

(** A snapshot stamped in UTC, half an hour before [noon], without a
    coverage figure. *)
Definition utc_partial_entry : json :=
  JObj [("timestamp", JStr "2026-11-04T11:30:00Z");
        ("build_time", JFloat 101)].

(** A monitoring script that records one snapshot in the state file and
    ends with return code 0. *)
Definition recording_monitor (f : fs) : fs * run_result :=
  ({| STATE_FILE := Holds (state_with [naive_entry]);
      alerts_log := alerts_log f;
      PERFORMANCE_DIR := PERFORMANCE_DIR f;
      DASHBOARD_DIR := DASHBOARD_DIR f |},
   Completed 0 "" "").

End Samples.

(** ** The refresh timer of the page (JavaScript) *)

Module Countdown.

(** The two globals [autoRefresh] and [refreshCountdown]; the count-down
    only takes whole values. *)
Record timer := {
  autoRefresh : bool;
  refreshCountdown : Z
}.

(** [let autoRefresh = true; let refreshCountdown = 30;] *)
Definition initial : timer := {| autoRefresh := true; refreshCountdown := 30 |}.

(** [updateCountdown], run every second by [setInterval]: the new globals
    and whether [refreshData()] was called. *)
Definition updateCountdown (s : timer) : timer * bool :=
  if autoRefresh s && (0 <? refreshCountdown s) then
    ({| autoRefresh := autoRefresh s;
        refreshCountdown := refreshCountdown s - 1 |}, false)
  else if autoRefresh s then
    ({| autoRefresh := autoRefresh s; refreshCountdown := 30 |}, true)
  else (s, false).

(** [toggleAutoRefresh] *)
Definition toggleAutoRefresh (s : timer) : timer :=
  let a := negb (autoRefresh s) in
  {| autoRefresh := a;
     refreshCountdown := if a then 30 else refreshCountdown s |}.

(** The last step of the [then] chain of [refreshData]. *)
Definition refreshed (s : timer) : timer :=
  {| autoRefresh := autoRefresh s; refreshCountdown := 30 |}.

(** [n] seconds without any other event: the globals and the number of
    calls of [refreshData()]. *)
Fixpoint seconds (n : nat) (s : timer) : timer * nat :=
  match n with
  | O => (s, O)
  | S n' =>
      let (s1, fired) := updateCountdown s in
      let (s2, calls) := seconds n' s1 in
      (s2, ((if fired then 1 else 0) + calls)%nat)
  end.

(** What can happen to the timer. *)
Inductive happening := Second | Toggle | Refreshed.

Definition after (s : timer) (h : happening) : timer :=
  match h with
  | Second => fst (updateCountdown s)
  | Toggle => toggleAutoRefresh s
  | Refreshed => refreshed s
  end.

End Countdown.

(** ** The configurator: the requests of a run *)

Module Plan.
Import Eff Configurator.

Definition put_protection_request (bc : string * BranchProtectionConfig) : request :=
  {| meth := PUT;
     endpoint := "branches/" ++ fst bc ++ "/protection";
     payload := Some (protection_data (fst bc) (snd bc)) |}.

Definition put_request (endpoint : string) : request :=
  {| meth := PUT; endpoint := endpoint; payload := None |}.

Definition reads (branches : list string) : list request :=
  map protection_request branches.

(** The requests before the prompt, and those after it. *)
Definition requests_before_prompt : list request :=
  repo_info_request :: reads (map fst create_branch_configs).

Definition requests_after_prompt : list request :=
  (map put_protection_request create_branch_configs
   ++ [put_request "vulnerability-alerts";
       put_request "automated-security-fixes"]
   ++ reads (map fst create_branch_configs))%list.

Definition planned_requests : list request :=
  (requests_before_prompt ++ requests_after_prompt)%list.

(** [m] sends the requests [rs] in order, all of them when it returns and
    a first part of them otherwise, and leaves with no exit code but 1. *)
Definition conducts {A} (m : M state A) (rs : list request) : Prop :=
  forall t, exists k,
    (k <= List.length rs)%nat
    /\ sent (snd (m t)) = (sent t ++ firstn k rs)%list
    /\ (forall a, fst (m t) = Ret a -> k = List.length rs)
    /\ (forall c, fst (m t) = Exit c -> c = 1).

(** The branches whose PUT is answered with status 200, the requests
    sent before being [earlier]. *)
Fixpoint accepted (env : environment) (earlier : list request)
  (configs : list (string * BranchProtectionConfig)) : Z :=
  match configs with
  | [] => 0
  | bc :: rest =>
      match api env earlier (put_protection_request bc) with
      | Response resp =>
          (if status_code resp =? 200 then 1 else 0)
          + accepted env (earlier ++ [put_protection_request bc])%list rest
      | RequestException => 0
      end
  end.

(** When [m] returns, the last thing it did is [e]. *)
Definition closes (e : event) {A} (m : M state A) : Prop :=
  forall t a t', m t = (Ret a, t') -> exists t0, t' = (t0 ++ [e])%list.

(** A repository that answers every read and refuses every change. *)
Definition refusing_api (earlier : list request) (r : request) : reply :=
  match meth r with
  | GET => if String.eqb (endpoint r) "" then Runs.ok_response (Some Runs.repo_info)
           else Runs.not_found
  | _ => Response {| status_code := 403; json_body := None; text := "Forbidden" |}
  end.

(** What follows the preparation in a trace: the prompt and the rest, or
    events without any PUT. *)
Definition quiet_tail (tail : list event) : Prop :=
  (exists more, tail = Prompted :: more)
  \/ forallb (fun e => negb (is_put e)) tail = true.

(** The six fields that [print_repository_summary] reads are there. *)
Definition summary_ready (repo_info : json) : bool :=
  match getitem repo_info "full_name",
        getitem repo_info "stargazers_count",
        getitem repo_info "forks_count",
        getitem repo_info "default_branch",
        getitem repo_info "private",
        (c <-- getitem repo_info "created_at" ;; slice10 c) with
  | inr _, inr _, inr _, inr _, inr _, inr _ => true
  | _, _, _, _, _, _ => false
  end.

End Plan.

(** ** Shapes of strings and states *)

Module Shape.

(** The string begins, or ends, with white space. *)
Definition starts_blank (s : string) : bool :=
  match s with
  | String c _ => Py.is_space c
  | EmptyString => false
  end.

Fixpoint ends_blank (s : string) : bool :=
  match s with
  | EmptyString => false
  | String c EmptyString => Py.is_space c
  | String _ r => ends_blank r
  end.

(** Values that are neither iterable nor indexable: None, booleans and
    numbers. *)
Definition scalar (v : json) : bool :=
  match v with
  | JNull | JBool _ | JInt _ | JFloat _ => true
  | _ => false
  end.

Definition is_object (v : json) : bool :=
  match v with
  | JObj _ => true
  | _ => false
  end.

(** [l] is the end of [whole]. *)
Definition is_suffix {A} (l whole : list A) : Prop :=
  exists front, whole = (front ++ l)%list.

End Shape.

(** * Properties *)

Open Scope list_scope.

(** ** Status cards *)

Section StatusPolicy.
Import Page.
Local Open Scope float_scope.

(** A zero lies strictly under every positive threshold. *)
Lemma zero_under_threshold (t v : float) :
  (0 <? t) = true -> (v =? 0) = true -> (t <? v) = false /\ (v <? t) = true.
Proof.
  rewrite !ltb_spec, eqb_spec.
  change (Prim2SF 0) with (S754_zero false).
  destruct (Prim2SF v) as [s|s| |s m e];
    destruct (Prim2SF t) as [s'|s'| |s' m' e'];
    try destruct s; try destruct s'; cbn; try discriminate; auto.
Qed.

(** A NaN compares with nothing. *)
Lemma nan_unordered (t v : float) :
  (v =? v) = false -> (t <? v) = false /\ (v <? t) = false.
Proof.
  rewrite !ltb_spec, eqb_spec.
  destruct (Prim2SF v) as [s|s| |s m e];
    destruct (Prim2SF t) as [s'|s'| |s' m' e'];
    try destruct s; try destruct s'; cbn; try discriminate; auto.
  all: try (rewrite Z.compare_refl, Pos.compare_refl; discriminate).
Qed.

(** An upper limit: critical exactly for a present value above it. *)
Lemma upper_limit (t : float) (field : option float) :
  (0 <? t) = true ->
  getStatusClass (or_zero field) t gt = critical
  <-> exists v, field = Some v /\ (t <? v) = true.
Proof.
  intros Ht. unfold getStatusClass, or_zero.
  destruct field as [v|].
  - destruct (v =? 0) eqn:E0; cbn [orb].
    + destruct (zero_under_threshold t v Ht E0) as [H _].
      assert (Hz : (t <? 0) = false)
        by (apply (zero_under_threshold t 0 Ht); reflexivity).
      rewrite Hz. split; [discriminate|].
      intros (v' & [= <-] & H'). congruence.
    + destruct (v =? v) eqn:En; cbn [negb].
      * destruct (t <? v) eqn:E; split; try discriminate; eauto.
        intros (v' & [= <-] & H'). congruence.
      * destruct (nan_unordered t v En) as [H _].
        assert (Hz : (t <? 0) = false)
          by (apply (zero_under_threshold t 0 Ht); reflexivity).
        rewrite Hz. split; [discriminate|].
        intros (v' & [= <-] & H'). congruence.
  - assert (Hz : (t <? 0) = false)
      by (apply (zero_under_threshold t 0 Ht); reflexivity).
    rewrite Hz. split; [discriminate|]. intros (v & [=] & _).
Qed.

(** A lower limit: critical for a missing value, a NaN, and a value under it. *)
Lemma lower_limit (t : float) (field : option float) :
  (0 <? t) = true ->
  getStatusClass (or_zero field) t lt = critical
  <-> field = None
      \/ exists v, field = Some v /\ ((v <? t) = true \/ (v =? v) = false).
Proof.
  intros Ht. unfold getStatusClass, or_zero.
  destruct field as [v|].
  - destruct (v =? 0) eqn:E0; cbn [orb].
    + destruct (zero_under_threshold t v Ht E0) as [_ H].
      rewrite Ht. split; [|reflexivity]. intros _. right. eauto.
    + destruct (v =? v) eqn:En; cbn [negb].
      * destruct (v <? t) eqn:E; split; try reflexivity; eauto.
        -- discriminate.
        -- intros [[=]|(v' & [= <-] & [H'|H'])]; congruence.
      * rewrite Ht. split; [|reflexivity]. intros _. right. eauto.
  - rewrite Ht. split; auto.
Qed.

End StatusPolicy.

(** C1, as the code has it: each card is critical or good by one strict
    comparison of the value (a missing value counting as 0) with a fixed
    limit.  Build time, test time and memory are critical exactly above
    180, 120 and 200; coverage is critical exactly under 82, so that a
    coverage of 82 is good, as is 82.1, and a build time of 180 is good
    and 181 critical. *)
Theorem status_policy (m : Page.metrics) :
  (Page.buildStatus m = Page.critical
   <-> exists v, Page.build_time m = Some v /\ (180 <? v)%float = true)
  /\ (Page.testStatus m = Page.critical
      <-> exists v, Page.test_time m = Some v /\ (120 <? v)%float = true)
  /\ (Page.memoryStatus m = Page.critical
      <-> exists v, Page.memory_mb m = Some v /\ (200 <? v)%float = true)
  /\ (Page.coverageStatus m = Page.critical
      <-> Page.coverage m = None
          \/ exists v, Page.coverage m = Some v
                       /\ ((v <? 82)%float = true \/ (v =? v)%float = false))
  /\ Page.getStatusClass 180 180 Page.gt = Page.good
  /\ Page.getStatusClass 181 180 Page.gt = Page.critical
  /\ Page.getStatusClass 82 82 Page.lt = Page.good
  /\ Page.getStatusClass 82.1 82 Page.lt = Page.good
  /\ Page.getStatusClass 81.9 82 Page.lt = Page.critical.
Proof.
  unfold Page.buildStatus, Page.testStatus, Page.memoryStatus, Page.coverageStatus.
  split; [apply upper_limit; reflexivity|].
  split; [apply upper_limit; reflexivity|].
  split; [apply upper_limit; reflexivity|].
  split; [apply lower_limit; reflexivity|].
  repeat split; reflexivity.
Qed.

(** C1 as stated fails: a coverage of exactly 82 is not critical. *)
Lemma coverage_82_not_critical :
  Page.coverageStatus
    {| Page.build_time := Some 100%float; Page.test_time := Some 60%float;
       Page.coverage := Some 82%float; Page.memory_mb := Some 150%float |}
  <> Page.critical.
Proof. discriminate. Qed.

(** ** The alert feed *)

Section AlertFacts.
Import Dashboard.

Lemma filter_all {A} (f : A -> bool) (l : list A) :
  forallb f l = true -> filter f l = l.
Proof.
  induction l as [|x l IH]; cbn; [reflexivity|].
  intros H. apply andb_true_iff in H as [-> H]. now rewrite IH.
Qed.

Lemma last_n_app {A} (n : nat) (x y : list A) :
  List.length y = n \/ (x = [] /\ (List.length y <= n)%nat) ->
  last_n n (x ++ y) = y.
Proof.
  unfold last_n. intros [H | [-> H]].
  - rewrite length_app, H, Nat.add_sub, skipn_app, skipn_all, Nat.sub_diag.
    reflexivity.
  - cbn [app]. replace (List.length y - n)%nat with 0%nat by lia. reflexivity.
Qed.

(** Where none of the last ten lines is empty, the handler returns the
    last ten non-empty lines of the file. *)
Lemma tail_alerts_without_blanks (lines : list string) :
  forallb nonblank (last_n 10 lines) = true ->
  tail_alerts lines = last_nonempty_lines 10 lines.
Proof.
  intros H. unfold tail_alerts, last_nonempty_lines.
  set (k := (List.length lines - 10)%nat).
  assert (Hf : filter nonblank lines
               = filter nonblank (firstn k lines)
                 ++ filter nonblank (last_n 10 lines)).
  { rewrite <- filter_app. f_equal. symmetry. apply firstn_skipn. }
  rewrite (filter_all _ _ H) in *. rewrite Hf, map_app.
  symmetry. apply last_n_app.
  unfold last_n. rewrite length_map, length_skipn.
  destruct (Nat.le_gt_cases 10 (List.length lines)) as [Hl|Hl].
  - left. lia.
  - right. subst k. replace (List.length lines - 10)%nat with 0%nat by lia.
    split; [reflexivity | lia].
Qed.

End AlertFacts.

(** C2, at a log of ten alerts followed by three empty lines: the handler
    cuts the last ten lines first and drops the empty ones afterwards, so
    it answers with seven alerts, where the last ten non-empty lines of
    the file are all ten. *)
Theorem alerts_cut_before_filter :
  Dashboard.read_alerts (Samples.fs_with_alerts Samples.alerts_then_blanks)
  = ["WARNING: test time 118s"; "CRITICAL: coverage 79.0%";
     "INFO: check passed"; "CRITICAL: build time 204s";
     "WARNING: memory 198MB"; "INFO: check passed";
     "CRITICAL: test time 131s"]
  /\ Dashboard.last_nonempty_lines 10
       (Dashboard.readlines Samples.alerts_then_blanks)
     = ["CRITICAL: build time 191s"; "WARNING: coverage 82.4%";
        "CRITICAL: memory 212MB"; "WARNING: test time 118s";
        "CRITICAL: coverage 79.0%"; "INFO: check passed";
        "CRITICAL: build time 204s"; "WARNING: memory 198MB";
        "INFO: check passed"; "CRITICAL: test time 131s"].
Proof. split; vm_compute; reflexivity. Qed.

(** ** Trends *)

Section TrendFacts.
Import Dashboard.
Variable fromisoformat : string -> option datetime.

(** An entry that passes the window test and has no figure for the metric
    gives a point of value 0. *)
Lemma trend_step_without_metric cutoff metric fields ts t :
  lookup "timestamp" fields = Some (JStr ts) ->
  fromisoformat (Py.replace_char "Z" "+00:00" ts) = Some t ->
  ge_naive t cutoff = inr true ->
  lookup metric fields = None ->
  trend_step fromisoformat cutoff metric (JObj fields)
  = [JObj [("timestamp", JStr ts); ("value", JInt 0)]].
Proof.
  intros Hts Hparse Hge Hm.
  unfold trend_step, try_entry. cbn [get getitem Py.bind_res].
  rewrite Hts, Hparse. cbn [Py.bind_res]. rewrite Hge. cbn [Py.bind_res].
  rewrite Hm. reflexivity.
Qed.

(** The trend of a state whose history is a list: nothing is raised. *)
Lemma get_trend_data_of_list now state history metric hours :
  lookup "metrics_history" state = Some (JArr history) ->
  get_trend_data fromisoformat now (JObj state) metric hours
  = inr (flat_map (trend_step fromisoformat (now - hours * HOUR_US) metric) history).
Proof.
  intros H. unfold get_trend_data. cbn [get Py.bind_res]. rewrite H. reflexivity.
Qed.

(** A stamp without offset that is not after the time of the call passes
    the code's test exactly when the description keeps it. *)
Lemma trend_step_naive local_offset now hours metric entry :
  (forall fields s us off,
      entry = JObj fields -> lookup "timestamp" fields = Some (JStr s) ->
      fromisoformat (Py.replace_char "Z" "+00:00" s) <> Some (Aware us off)) ->
  (forall fields s us,
      entry = JObj fields -> lookup "timestamp" fields = Some (JStr s) ->
      fromisoformat (Py.replace_char "Z" "+00:00" s) = Some (Naive us) ->
      us <= now) ->
  trend_step fromisoformat (now - hours * HOUR_US) metric entry
  = spec_entry fromisoformat local_offset now hours metric entry.
Proof.
  intros Hnaive Hpast. unfold trend_step, try_entry, spec_entry.
  destruct entry as [ | | | | |items|fields]; try reflexivity.
  cbn [get getitem Py.bind_res].
  destruct (lookup "timestamp" fields) as [v|] eqn:Hts.
  - destruct v as [ | | | |s| | ]; try reflexivity.
    specialize (Hnaive fields s). specialize (Hpast fields s).
    destruct (fromisoformat (Py.replace_char "Z" "+00:00" s)) as [[us|us off]|];
      [ | exfalso; eapply Hnaive; eauto | reflexivity ].
    specialize (Hpast us eq_refl Hts eq_refl).
    cbn [ge_naive instant Py.bind_res].
    replace ((now - local_offset - hours * HOUR_US <=? us - local_offset)
             && (us - local_offset <=? now - local_offset))%bool
      with (now - hours * HOUR_US <=? us)
      by (apply Bool.eq_true_iff_eq;
          rewrite andb_true_iff, !Z.leb_le; lia).
    destruct (now - hours * HOUR_US <=? us); reflexivity.
  - specialize (Hnaive fields ""%string).
    destruct (fromisoformat (Py.replace_char "Z" "+00:00" "")) as [[us|us off]|];
      [ | reflexivity | reflexivity ].
    cbn [ge_naive Py.bind_res].
    destruct (now - hours * HOUR_US <=? us); reflexivity.
Qed.

End TrendFacts.

(** Where every stamp of the history is without offset and none is after
    the time of the call, the trend is the one the description gives, in
    history order, and nothing is raised. *)
Lemma get_trend_data_naive fromisoformat local_offset now state history metric hours :
  lookup "metrics_history" state = Some (JArr history) ->
  (forall entry fields s us off,
      In entry history ->
      entry = JObj fields -> lookup "timestamp" fields = Some (JStr s) ->
      fromisoformat (Py.replace_char "Z" "+00:00" s) <> Some (Dashboard.Aware us off)) ->
  (forall entry fields s us,
      In entry history ->
      entry = JObj fields -> lookup "timestamp" fields = Some (JStr s) ->
      fromisoformat (Py.replace_char "Z" "+00:00" s) = Some (Dashboard.Naive us) ->
      us <= now) ->
  Dashboard.get_trend_data fromisoformat now (JObj state) metric hours
  = inr (Dashboard.spec_trend fromisoformat local_offset now hours metric history).
Proof.
  intros Hh Hnaive Hpast.
  rewrite (get_trend_data_of_list _ _ _ _ _ _ Hh). f_equal.
  unfold Dashboard.spec_trend. clear Hh.
  induction history as [|e history IH]; [reflexivity|].
  cbn [flat_map]. f_equal.
  - apply trend_step_naive.
    + intros fields s us off. apply Hnaive. now left.
    + intros fields s us. apply Hpast. now left.
  - apply IH.
    + intros entry fields s us off Hin. apply Hnaive. now right.
    + intros entry fields s us Hin. apply Hpast. now right.
Qed.

(** C3, at a history of one snapshot taken half an hour before the call and
    stamped in UTC with a final Z: the stamp parses once the Z is replaced,
    the comparison of the aware stamp with the naive cut-off raises, and the
    entry is dropped, where the description keeps it.  The same snapshot
    with a stamp without offset is kept. *)
Theorem utc_stamp_dropped_from_trend :
  Dashboard.get_trend_data Dashboard.fromisoformat_seconds Samples.noon
    (Samples.state_with [Samples.utc_entry]) "build_time" 24
  = inr []
  /\ Dashboard.spec_trend Dashboard.fromisoformat_seconds 0 Samples.noon 24
       "build_time" [Samples.utc_entry]
     = [JObj [("timestamp", JStr "2026-11-04T11:30:00Z");
              ("value", JFloat 95.5)]]
  /\ Dashboard.get_trend_data Dashboard.fromisoformat_seconds Samples.noon
       (Samples.state_with [Samples.naive_entry]) "build_time" 24
     = inr [JObj [("timestamp", JStr "2026-11-04T11:30:00");
                  ("value", JFloat 95.5)]].
Proof. repeat split; vm_compute; reflexivity. Qed.

(** An entry of the history whose stamp parses and passes the code's
    window test (which only a stamp without offset does), and which has no
    field for the metric, is not skipped: the trend holds a point for it,
    at its place, with its stamp and the value 0. *)
Lemma missing_metric_gives_zero
  (fromisoformat : string -> option Dashboard.datetime)
  (now hours : Z) (metric : string)
  (state fields : list (string * json)) (before after : list json)
  (ts : string) (t : Dashboard.datetime) :
  lookup "metrics_history" state = Some (JArr (before ++ JObj fields :: after)) ->
  lookup "timestamp" fields = Some (JStr ts) ->
  fromisoformat (Py.replace_char "Z" "+00:00" ts) = Some t ->
  Dashboard.ge_naive t (now - hours * Dashboard.HOUR_US) = inr true ->
  lookup metric fields = None ->
  exists earlier later,
    Dashboard.get_trend_data fromisoformat now (JObj state) metric hours
    = inr (earlier ++ JObj [("timestamp", JStr ts); ("value", JInt 0)] :: later)
    /\ Dashboard.get_trend_data fromisoformat now
         (JObj [("metrics_history", JArr before)]) metric hours = inr earlier
    /\ Dashboard.get_trend_data fromisoformat now
         (JObj [("metrics_history", JArr after)]) metric hours = inr later.
Proof.
  intros Hh Hts Hparse Hge Hm.
  do 2 eexists. split; [|split].
  - rewrite (get_trend_data_of_list _ _ _ _ _ _ Hh).
    rewrite flat_map_app. cbn [flat_map].
    rewrite (trend_step_without_metric _ _ _ _ _ _ Hts Hparse Hge Hm).
    reflexivity.
  - apply get_trend_data_of_list. reflexivity.
  - apply get_trend_data_of_list. reflexivity.
Qed.

Lemma missing_metric_gives_zero_witness :
  exists earlier later,
    Dashboard.get_trend_data Dashboard.fromisoformat_seconds Samples.noon
      (Samples.state_with [Samples.naive_entry; Samples.partial_entry;
                           Samples.naive_entry])
      "coverage" 24
    = inr (earlier ++ JObj [("timestamp", JStr "2026-11-04T09:15:00");
                            ("value", JInt 0)] :: later)
    /\ Dashboard.get_trend_data Dashboard.fromisoformat_seconds Samples.noon
         (JObj [("metrics_history", JArr [Samples.naive_entry])]) "coverage" 24
       = inr earlier
    /\ Dashboard.get_trend_data Dashboard.fromisoformat_seconds Samples.noon
         (JObj [("metrics_history", JArr [Samples.naive_entry])]) "coverage" 24
       = inr later.
Proof.
  apply (missing_metric_gives_zero Dashboard.fromisoformat_seconds
           Samples.noon 24 "coverage"
           [("consecutive_failures", JInt 0);
            ("last_successful_run", JStr "2026-11-04T11:30:00Z");
            ("metrics_history",
             JArr [Samples.naive_entry; Samples.partial_entry; Samples.naive_entry])]
           [("timestamp", JStr "2026-11-04T09:15:00"); ("build_time", JFloat 101)]
           [Samples.naive_entry] [Samples.naive_entry]
           "2026-11-04T09:15:00"
           (Dashboard.Naive (Samples.at_time "2026-11-04T09:15:00")));
    vm_compute; reflexivity.
Defined.

(** C10, at a history of one snapshot taken half an hour before the call,
    stamped in UTC with a final Z and without a coverage figure: the stamp
    parses and lies within the window, so the description gives a point of
    value 0 for it, but the comparison of the aware stamp with the naive
    cut-off raises and the entry is skipped: the coverage trend is empty.
    A snapshot without coverage whose stamp has no offset gets its point
    of value 0. *)
Theorem utc_stamp_without_metric_skipped :
  Dashboard.get_trend_data Dashboard.fromisoformat_seconds Samples.noon
    (Samples.state_with [Samples.utc_partial_entry]) "coverage" 24
  = inr []
  /\ Dashboard.spec_trend Dashboard.fromisoformat_seconds 0 Samples.noon 24
       "coverage" [Samples.utc_partial_entry]
     = [JObj [("timestamp", JStr "2026-11-04T11:30:00Z");
              ("value", JInt 0)]]
  /\ Dashboard.get_trend_data Dashboard.fromisoformat_seconds Samples.noon
       (Samples.state_with [Samples.partial_entry]) "coverage" 24
     = inr [JObj [("timestamp", JStr "2026-11-04T09:15:00");
                  ("value", JInt 0)]].
Proof. repeat split; vm_compute; reflexivity. Qed.

(** ** Loading the state file *)

Section DashboardFacts.
Import Dashboard.
Variable fromisoformat : string -> option datetime.
Variable monitor : fs -> fs * run_result.

(** [load_data] returns, never touches the files, and leaves the default
    state unless the file decodes. *)
Lemma load_data_spec (w : world) :
  load_data w
  = (Eff.Ret tt,
     set_data (match STATE_FILE (files w) with
               | Holds j => j
               | _ => default_data
               end) w).
Proof.
  unfold load_data, Eff.try_except, Eff.bind, state_exists, state_load,
    Eff.gets, Eff.modify.
  destruct (STATE_FILE (files w)) eqn:E; cbn; rewrite ?E; reflexivity.
Qed.

Lemma refresh_data_files (n : nat) (w : world) :
  files (snd (refresh_data n w)) = files w.
Proof.
  revert w. induction n as [|n IH]; intros w; [reflexivity|].
  cbn [refresh_data]. unfold Eff.bind. rewrite load_data_spec.
  rewrite IH. reflexivity.
Qed.

(** The start only makes the two directories. *)
Lemma startup_state_file (w : world) :
  STATE_FILE (files (snd (startup w))) = STATE_FILE (files w)
  /\ alerts_log (files (snd (startup w))) = alerts_log (files w).
Proof.
  unfold startup, Eff.bind, Eff.modify. rewrite load_data_spec.
  unfold mkdir_exist_ok. cbn [files set_data].
  destruct (PERFORMANCE_DIR (files w)); cbn;
    try (split; reflexivity);
    destruct (DASHBOARD_DIR (files w)); split; reflexivity.
Qed.

(** [get_metrics] changes nothing, whatever it answers. *)
Lemma get_metrics_world (w : world) :
  snd (get_metrics fromisoformat w) = w.
Proof.
  unfold get_metrics, Eff.bind, trend, Eff.lift, Eff.gets, Eff.ret, Eff.raise.
  repeat match goal with
         | |- context [match ?x with inl _ => _ | inr _ => _ end] =>
             destruct x; cbn [fst snd]
         end; reflexivity.
Qed.

(** [run_check] leaves the files as the monitoring script left them. *)
Lemma run_check_world (w : world) :
  snd (run_check monitor w) = set_files (fst (monitor (files w))) w.
Proof.
  unfold run_check, Eff.bind, subprocess_run.
  destruct (monitor (files w)) as [f r]. cbn [fst].
  destruct r as [rc out err| |e]; [destruct (rc =? 0)| |]; reflexivity.
Qed.

End DashboardFacts.

(** C4: once the state file is found missing, or present but failing to
    load, the metrics request is answered, not failed: the latest snapshot
    is the empty object, the four trends are empty lists and the status is
    0; the alerts are those of the alert log. *)
Theorem metrics_without_state
  (fromisoformat : string -> option Dashboard.datetime) (w : Dashboard.world) :
  Dashboard.STATE_FILE (Dashboard.files w) = Dashboard.Absent
  \/ Dashboard.STATE_FILE (Dashboard.files w) = Dashboard.Unloadable ->
  Dashboard.get_metrics fromisoformat (snd (Dashboard.load_data w))
  = (Eff.Ret
       (JObj [("latest", JObj []);
              ("trends", JObj [("build_time", JArr []);
                               ("test_time", JArr []);
                               ("coverage", JArr []);
                               ("memory_mb", JArr [])]);
              ("alerts", JArr (map JStr (Dashboard.read_alerts (Dashboard.files w))));
              ("status", JInt 0)]),
     snd (Dashboard.load_data w)).
Proof.
  intros H. rewrite load_data_spec. cbn [snd].
  destruct H as [-> | ->]; reflexivity.
Qed.

Lemma metrics_without_state_witness :
  Dashboard.get_metrics Dashboard.fromisoformat_seconds
    (snd (Dashboard.load_data Samples.fresh_world))
  = (Eff.Ret
       (JObj [("latest", JObj []);
              ("trends", JObj [("build_time", JArr []);
                               ("test_time", JArr []);
                               ("coverage", JArr []);
                               ("memory_mb", JArr [])]);
              ("alerts", JArr []);
              ("status", JInt 0)]),
     snd (Dashboard.load_data Samples.fresh_world)).
Proof.
  apply (metrics_without_state Dashboard.fromisoformat_seconds Samples.fresh_world).
  left. reflexivity.
Defined.

(** ** The check on demand *)

(** C5: the handler always returns a message.  A zero return code gives
    the success message; any other return code gives the failure message,
    which ends with the captured standard error; the expiry of the time
    limit gives the time-out message, which no other outcome gives; any
    other failure to run the script gives an error message. *)
Theorem run_check_message
  (monitor : Dashboard.fs -> Dashboard.fs * Dashboard.run_result)
  (w : Dashboard.world) :
  exists m : string,
    fst (Dashboard.run_check monitor w) = Eff.Ret (Dashboard.message m)
    /\ match snd (monitor (Dashboard.files w)) with
       | Dashboard.Completed returncode _ stderr =>
           if returncode =? 0
           then m = "Performance check completed successfully!"%string
           else m = ("Performance check failed: " ++ stderr)%string
                /\ m <> "Performance check timed out"%string
                /\ m <> "Performance check completed successfully!"%string
       | Dashboard.TimeoutExpired => m = "Performance check timed out"%string
       | Dashboard.Failed str_e =>
           m = ("Error running check: " ++ str_e)%string
           /\ m <> "Performance check timed out"%string
       end.
Proof.
  unfold Dashboard.run_check, Eff.bind, Dashboard.subprocess_run.
  destruct (monitor (Dashboard.files w)) as [f r]. cbn [snd].
  destruct r as [rc out err| |e].
  - destruct (rc =? 0); eexists; (split; [reflexivity|]); cbn; auto.
    repeat split; discriminate.
  - eexists; split; reflexivity.
  - eexists; split; [reflexivity|]. split; [reflexivity|discriminate].
Qed.

(** ** The state file is only read *)

(** C8, as the code has it: the server itself never writes the state
    file.  The start, any number of refresh rounds, the index page and the
    metrics request leave it as it was; the check request launches the
    monitoring script and leaves the state file as that script left it,
    adding nothing of its own. *)
Theorem state_file_only_read
  (fromisoformat : string -> option Dashboard.datetime)
  (monitor : Dashboard.fs -> Dashboard.fs * Dashboard.run_result)
  (op : Dashboard.operation) (w : Dashboard.world) :
  Dashboard.STATE_FILE
    (Dashboard.files (snd (Dashboard.run fromisoformat monitor op w)))
  = match op with
    | Dashboard.OpRunCheck =>
        Dashboard.STATE_FILE (fst (monitor (Dashboard.files w)))
    | _ => Dashboard.STATE_FILE (Dashboard.files w)
    end.
Proof.
  destruct op as [ |n| | | ]; cbn [Dashboard.run].
  - apply startup_state_file.
  - rewrite refresh_data_files. reflexivity.
  - reflexivity.
  - unfold Eff.bind.
    pose proof (get_metrics_world fromisoformat w) as H.
    destruct (Dashboard.get_metrics fromisoformat w) as [[a|e|c] w'];
      cbn [snd] in *; subst; reflexivity.
  - unfold Eff.bind.
    pose proof (run_check_world monitor w) as H.
    destruct (Dashboard.run_check monitor w) as [[a|e|c] w'];
      cbn [snd] in *; subst; reflexivity.
Qed.

(** C8 as stated fails for the check request: with a monitoring script
    that records a snapshot, the state file, missing before the request,
    holds that snapshot after it. *)
Lemma run_check_changes_state_file :
  Dashboard.STATE_FILE
    (Dashboard.files
       (snd (Dashboard.run Dashboard.fromisoformat_seconds
               Samples.recording_monitor Dashboard.OpRunCheck
               Samples.fresh_world)))
  <> Dashboard.STATE_FILE (Dashboard.files Samples.fresh_world).
Proof. vm_compute. discriminate. Qed.

(** ** The configurator: reading the branch protection *)

(** C6: when the API answers the protection request of a branch, the call
    returns and the run goes on.  With status 200 it returns the settings
    decoded from the answer; with status 404 it returns None and prints
    nothing; with any other status it prints a warning naming the branch
    and the status, and returns None as well. *)
Theorem branch_protection_by_status
  (env : Configurator.environment) (branch : string)
  (t : Configurator.state) (resp : Configurator.response) :
  Configurator.api env (Configurator.sent t) (Configurator.protection_request branch)
  = Configurator.Response resp ->
  (Configurator.status_code resp = 200 ->
   forall settings, Configurator.json_body resp = Some settings ->
   Configurator.get_branch_protection env branch t
   = (Eff.Ret settings, t ++ [Configurator.Sent (Configurator.protection_request branch)]))
  /\ (Configurator.status_code resp = 404 ->
      Configurator.get_branch_protection env branch t
      = (Eff.Ret JNull, t ++ [Configurator.Sent (Configurator.protection_request branch)]))
  /\ (Configurator.status_code resp <> 200 ->
      Configurator.status_code resp <> 404 ->
      Configurator.get_branch_protection env branch t
      = (Eff.Ret JNull,
         t ++ [Configurator.Sent (Configurator.protection_request branch);
               Configurator.Printed "Failed to get branch protection for {}: {}"
                 [JStr branch; JInt (Configurator.status_code resp)]])).
Proof.
  intros Hapi.
  unfold Configurator.get_branch_protection, Eff.bind, Configurator._make_request.
  fold (Configurator.protection_request branch). rewrite Hapi.
  repeat split.
  - intros H200 settings Hbody. rewrite H200. cbn.
    unfold Configurator.response_json. rewrite Hbody. reflexivity.
  - intros H404. rewrite H404. reflexivity.
  - intros H200 H404.
    destruct (Z.eqb_spec (Configurator.status_code resp) 200); [contradiction|].
    destruct (Z.eqb_spec (Configurator.status_code resp) 404); [contradiction|].
    cbn. unfold Configurator.print, Eff.modify. cbn.
    rewrite <- app_assoc. reflexivity.
Qed.

Lemma branch_protection_by_status_witness :
  let env := {| Configurator.GITHUB_TOKEN := Some "ghp_token"%string;
                Configurator.gh_auth_token := Configurator.GhNotFound;
                Configurator.api := fun _ _ =>
                  Configurator.Response
                    {| Configurator.status_code := 403;
                       Configurator.json_body := None;
                       Configurator.text := "Forbidden" |};
                Configurator.stdin := Configurator.Line "n" |} in
  Configurator.get_branch_protection env "develop" []
  = (Eff.Ret JNull,
     [Configurator.Sent (Configurator.protection_request "develop");
      Configurator.Printed "Failed to get branch protection for {}: {}"
        [JStr "develop"; JInt 403]]).
Proof.
  intros env.
  refine (proj2 (proj2 (branch_protection_by_status env "develop" []
            {| Configurator.status_code := 403;
               Configurator.json_body := None;
               Configurator.text := "Forbidden" |} eq_refl)) _ _);
    discriminate.
Defined.

(** ** The configurator: what a run emits *)

Section Emits.
Import Configurator.
Variable env : environment.
Variable ok : event -> bool.

Lemma emits_ret {A} (a : A) : emits ok (Eff.ret a).
Proof. intros t. exists []. rewrite app_nil_r. split; reflexivity. Qed.

Lemma emits_raise {A} (e : Py.exn) : emits ok (@Eff.raise state A e).
Proof. intros t. exists []. rewrite app_nil_r. split; reflexivity. Qed.

Lemma emits_sys_exit {A} (c : Z) : emits ok (@Eff.sys_exit state A c).
Proof. intros t. exists []. rewrite app_nil_r. split; reflexivity. Qed.

Lemma emits_lift {A} (r : Py.res A) : emits ok (Eff.lift r).
Proof. destruct r; [apply emits_raise | apply emits_ret]. Qed.

Lemma emits_bind {A B} (m : Eff.M state A) (k : A -> Eff.M state B) :
  emits ok m -> (forall a, emits ok (k a)) -> emits ok (Eff.bind m k).
Proof.
  intros Hm Hk t. unfold Eff.bind.
  destruct (Hm t) as (evs & Ht & Hok).
  destruct (m t) as [[a|e|c] t1]; cbn [snd] in Ht; subst t1.
  - destruct (Hk a (t ++ evs)) as (evs' & Ht' & Hok').
    exists (evs ++ evs'). rewrite Ht', app_assoc, forallb_app, Hok, Hok'.
    split; reflexivity.
  - exists evs. split; [reflexivity | assumption].
  - exists evs. split; [reflexivity | assumption].
Qed.

Lemma emits_try {A} (m : Eff.M state A) (h : Py.exn -> Eff.M state A) :
  emits ok m -> (forall e, emits ok (h e)) -> emits ok (Eff.try_except m h).
Proof.
  intros Hm Hh t. unfold Eff.try_except.
  destruct (Hm t) as (evs & Ht & Hok).
  destruct (m t) as [[a|e|c] t1]; cbn [snd] in Ht; subst t1.
  - exists evs. split; [reflexivity | assumption].
  - destruct (Py.is_Exception e).
    + destruct (Hh e (t ++ evs)) as (evs' & Ht' & Hok').
      exists (evs ++ evs'). rewrite Ht', app_assoc, forallb_app, Hok, Hok'.
      split; reflexivity.
    + exists evs. split; [reflexivity | assumption].
  - exists evs. split; [reflexivity | assumption].
Qed.

Lemma emits_print text args :
  ok (Printed text args) = true -> emits ok (print text args).
Proof.
  intros H t. exists [Printed text args]. cbn. rewrite H. split; reflexivity.
Qed.

Lemma emits_sleep seconds :
  ok (Slept seconds) = true -> emits ok (sleep seconds).
Proof.
  intros H t. exists [Slept seconds]. cbn. rewrite H. split; reflexivity.
Qed.

Lemma emits_input : ok Prompted = true -> emits ok (input env).
Proof.
  intros H t. exists [Prompted]. unfold input.
  destruct (stdin env); cbn; rewrite H; split; reflexivity.
Qed.

Hypothesis ok_printed : forall text args, ok (Printed text args) = true.

Lemma emits_make_request m endpoint data :
  ok (Sent {| meth := m; endpoint := endpoint;
              payload := match m with PUT | POST => data | _ => None end |}) = true ->
  emits ok (_make_request env m endpoint data).
Proof.
  intros H t. unfold _make_request.
  destruct (api env (sent t) _).
  - eexists [_]. cbn. rewrite H. split; reflexivity.
  - eexists [_; _]. cbn. rewrite <- app_assoc, H, ok_printed. split; reflexivity.
Qed.

Lemma emits_response_json r : emits ok (response_json r).
Proof.
  unfold response_json. destruct (json_body r); [apply emits_ret | apply emits_raise].
Qed.

(** Requests with the method GET are allowed. *)
Hypothesis ok_get : forall endpoint,
  ok (Sent {| meth := GET; endpoint := endpoint; payload := None |}) = true.

Ltac emits_step :=
  first
    [ apply emits_ret | apply emits_raise | apply emits_sys_exit
    | apply emits_lift | apply emits_response_json
    | apply emits_print; apply ok_printed
    | apply emits_make_request; apply ok_get
    | apply emits_bind; [ | intros ? ]
    | match goal with
      | |- emits _ (if ?b then _ else _) => destruct b
      | |- emits _ (match ?x with _ => _ end) => destruct x
      end ].

Lemma emits_get_repository_info : emits ok (get_repository_info env).
Proof. unfold get_repository_info. repeat emits_step. Qed.

Lemma emits_get_branch_protection branch :
  emits ok (get_branch_protection env branch).
Proof. unfold get_branch_protection. repeat emits_step. Qed.

Lemma emits_get_github_token : emits ok (get_github_token env).
Proof. unfold get_github_token. repeat emits_step. Qed.

Lemma emits_print_repository_summary : emits ok (print_repository_summary env).
Proof.
  unfold print_repository_summary.
  repeat first [ apply emits_get_repository_info | emits_step ].
Qed.

Lemma emits_verify_branch branch : emits ok (verify_branch env branch).
Proof.
  unfold verify_branch.
  repeat first [ apply emits_get_branch_protection | emits_step ].
Qed.

Lemma emits_verify_protection_status branches :
  emits ok (verify_protection_status env branches).
Proof.
  unfold verify_protection_status.
  apply emits_bind; [emits_step | intros _].
  apply emits_bind; [ | intros _; emits_step ].
  induction branches as [|b r IH]; cbn [for_each].
  - apply emits_ret.
  - apply emits_bind; [apply emits_verify_branch | intros _; exact IH].
Qed.

Lemma emits_prepare branches : emits ok (prepare env branches).
Proof.
  unfold prepare.
  repeat first
    [ apply emits_verify_protection_status
    | apply emits_print_repository_summary
    | apply emits_try; [ | intros ? ]
    | apply emits_get_github_token
    | emits_step ].
Qed.

End Emits.

(** Whatever a run does, it only adds to the trace. *)
Section Grows.
Import Configurator.
Variable env : environment.

Ltac grows_step :=
  first
    [ apply emits_ret | apply emits_raise | apply emits_sys_exit
    | apply emits_lift | apply emits_response_json
    | apply emits_print; reflexivity
    | apply emits_sleep; reflexivity
    | apply emits_input; reflexivity
    | apply emits_make_request; reflexivity
    | apply emits_verify_protection_status; reflexivity
    | apply emits_prepare; reflexivity
    | apply emits_bind; [ | intros ? ]
    | match goal with
      | |- emits _ (if ?b then _ else _) => destruct b
      | |- emits _ (match ?x with _ => _ end) => destruct x
      end ].

Lemma grows_set_branch_protection branch config :
  emits any_event (set_branch_protection env branch config).
Proof. unfold set_branch_protection. repeat grows_step. Qed.

Lemma grows_apply_protection configs success_count :
  emits any_event (apply_protection env configs success_count).
Proof.
  revert success_count.
  induction configs as [|[branch config] rest IH]; intros success_count;
    cbn [apply_protection].
  - apply emits_ret.
  - apply emits_bind; [apply grows_set_branch_protection | intros ok].
    apply emits_bind; [destruct ok; repeat grows_step | intros n].
    apply emits_bind; [grows_step | intros _]. apply IH.
Qed.

(** The rest of [apply_changes], once the protections are applied. *)
Lemma grows_apply_changes_rest configs branches :
  emits any_event (apply_changes env configs branches).
Proof.
  unfold apply_changes, enable_vulnerability_alerts,
    enable_automated_security_fixes.
  repeat first [ apply grows_apply_protection | grows_step ].
Qed.

(** A bind ends with a trace that extends the one its first part left. *)
Lemma bind_extends {A B} (m : Eff.M state A) (k : A -> Eff.M state B) t :
  (forall a, emits any_event (k a)) ->
  exists evs, snd (Eff.bind m k t) = snd (m t) ++ evs.
Proof.
  intros Hk. unfold Eff.bind.
  destruct (m t) as [[a|e|c] t1]; cbn [snd].
  - destruct (Hk a t1) as (evs & H & _). eauto.
  - exists []. now rewrite app_nil_r.
  - exists []. now rewrite app_nil_r.
Qed.

Lemma bind_print {B} text args (k : unit -> Eff.M state B) t :
  Eff.bind (print text args) k t = k tt (t ++ [Printed text args]).
Proof. reflexivity. Qed.

(** The first request of [apply_changes] is the PUT for [main]. *)
Lemma apply_changes_puts_main t :
  In (Sent {| meth := PUT; endpoint := "branches/main/protection";
              payload := Some (protection_data "main" main_config) |})
     (snd (apply_changes env create_branch_configs
             (map fst create_branch_configs) t)).
Proof.
  unfold apply_changes. rewrite !bind_print.
  match goal with
  | |- In _ (snd (Eff.bind ?m ?k ?t)) =>
      destruct (bind_extends m k t) as (evs & ->)
  end.
  { intros n. fold (enable_vulnerability_alerts env).
    fold (enable_automated_security_fixes env).
    unfold enable_vulnerability_alerts, enable_automated_security_fixes.
    repeat grows_step. }
  apply in_or_app. left.
  cbn [create_branch_configs apply_protection].
  match goal with
  | |- In _ (snd (Eff.bind ?m ?k ?t)) =>
      destruct (bind_extends m k t) as (evs' & ->)
  end.
  { intros ok. apply emits_bind; [destruct ok; repeat grows_step | intros n].
    apply emits_bind; [grows_step | intros _].
    exact (grows_apply_protection [("develop", develop_config)] n). }
  apply in_or_app. left.
  unfold set_branch_protection. rewrite bind_print.
  match goal with
  | |- In _ (snd (Eff.bind ?m ?k ?t)) =>
      destruct (bind_extends m k t) as (evs'' & ->)
  end.
  { intros r. repeat grows_step. }
  apply in_or_app. left.
  unfold _make_request.
  match goal with
  | |- context [api env ?h ?r] => destruct (api env h r)
  end; cbn [snd].
  - apply in_or_app. right. now left.
  - unfold Eff.bind, print, Eff.modify, Eff.sys_exit. cbn [snd].
    apply in_or_app. left. apply in_or_app. right. now left.
Qed.

End Grows.

(** ** The configurator: the confirmation *)

Section Confirmation.
Import Configurator.
Variable env : environment.

Lemma preparatory_not_put evs e :
  forallb preparatory evs = true -> In e evs -> is_put e = false /\ e <> Prompted.
Proof.
  intros H Hin. rewrite forallb_forall in H. specialize (H e Hin).
  destruct e; cbn in H; try discriminate; split; try discriminate;
    try reflexivity.
  now apply negb_true_iff in H.
Qed.

(** The run up to the prompt: what [prepare] left, and how it ended. *)
Lemma prepare_trace :
  exists evs,
    snd (prepare env (map fst create_branch_configs) []) = evs
    /\ forallb preparatory evs = true.
Proof.
  destruct (emits_prepare env preparatory (fun _ _ => eq_refl) (fun _ => eq_refl)
              (map fst create_branch_configs) []) as (evs & H & Hok).
  exists evs. split; assumption.
Qed.

(** Without a confirming answer, no PUT is sent. *)
Lemma unconfirmed_no_put :
  (forall s, stdin env = Line s -> confirms s = false) ->
  forall e, In e (trace env) -> is_put e = false.
Proof.
  intros Hno e. unfold trace, script, main, Eff.bind.
  destruct prepare_trace as (evs & Ht & Hok).
  destruct (prepare env (map fst create_branch_configs) []) as [[u|x|c] t1];
    cbn [snd] in Ht; subst t1.
  - unfold input. destruct (stdin env) as [s| |] eqn:Hin.
    + fold (confirms s). rewrite (Hno s eq_refl). cbn.
      rewrite !in_app_iff. cbn.
      intros [[H|[<-|[]]]|[<-|[]]]; try reflexivity.
      apply (preparatory_not_put evs e Hok H).
    + cbn. rewrite !in_app_iff. cbn.
      intros [[H|[<-|[]]]|[<-|[]]]; try reflexivity.
      apply (preparatory_not_put evs e Hok H).
    + cbn. rewrite !in_app_iff. cbn.
      intros [[H|[<-|[]]]|[<-|[]]]; try reflexivity.
      apply (preparatory_not_put evs e Hok H).
  - destruct (Py.is_Exception x); cbn; rewrite in_app_iff; cbn;
      intros [H|[<-|[]]]; try reflexivity;
      apply (preparatory_not_put evs e Hok H).
  - cbn. intros H. apply (preparatory_not_put evs e Hok H).
Qed.

(** Once the prompt is shown, a declined run ends with exit code 0. *)
Lemma declined_exit_0 s :
  stdin env = Line s -> confirms s = false ->
  In Prompted (trace env) -> exit_code env = 0.
Proof.
  intros Hin Hno. unfold trace, exit_code, script, main, Eff.bind.
  destruct prepare_trace as (evs & Ht & Hok).
  destruct (prepare env (map fst create_branch_configs) []) as [[u|x|c] t1];
    cbn [snd] in Ht; subst t1.
  - unfold input. rewrite Hin. fold (confirms s). rewrite Hno. reflexivity.
  - destruct (Py.is_Exception x); cbn; rewrite in_app_iff; cbn;
      intros [H|[[=]|[]]];
      destruct (preparatory_not_put evs _ Hok H) as [_ Hp]; now elim Hp.
  - cbn. intros H.
    destruct (preparatory_not_put evs _ Hok H) as [_ Hp]. now elim Hp.
Qed.

(** Once the prompt is shown, a confirmed run sends the PUT for [main]. *)
Lemma confirmed_puts_main s :
  stdin env = Line s -> confirms s = true ->
  In Prompted (trace env) ->
  In (Sent {| meth := PUT; endpoint := "branches/main/protection";
              payload := Some (protection_data "main" main_config) |})
     (trace env).
Proof.
  intros Hin Hyes. unfold trace, script, main, Eff.bind.
  destruct prepare_trace as (evs & Ht & Hok).
  destruct (prepare env (map fst create_branch_configs) []) as [[u|x|c] t1];
    cbn [snd] in Ht; subst t1.
  - unfold input. rewrite Hin. fold (confirms s). rewrite Hyes. cbn [negb].
    intros _.
    pose proof (apply_changes_puts_main env (evs ++ [Prompted])) as H.
    destruct (apply_changes env create_branch_configs
                (map fst create_branch_configs) (evs ++ [Prompted]))
      as [[u'|x|c] t2]; cbn [snd] in *; try assumption.
    destruct (Py.is_Exception x); cbn [snd]; apply in_or_app; now left.
  - destruct (Py.is_Exception x); cbn; rewrite in_app_iff; cbn;
      intros [H|[[=]|[]]];
      destruct (preparatory_not_put evs _ Hok H) as [_ Hp]; now elim Hp.
  - cbn. intros H.
    destruct (preparatory_not_put evs _ Hok H) as [_ Hp]. now elim Hp.
Qed.

Lemma confirms_iff s :
  confirms s = true <-> Py.lower s = "y"%string \/ Py.lower s = "yes"%string.
Proof.
  unfold confirms, Py.str_in. cbn [existsb].
  rewrite !orb_true_iff, !String.eqb_eq. intuition discriminate.
Qed.

End Confirmation.

(** C9: an answer whose lower-case form is neither [y] nor [yes] ends the
    run at the prompt with exit code 0, and such a run sends no PUT at all,
    neither for a branch protection nor for a security feature; an answer
    that is [y] or [yes] in any case lets the run go on to the PUT for the
    protection of [main]. *)
Theorem confirmation_gate (env : Configurator.environment) :
  (forall answer,
      Configurator.stdin env = Configurator.Line answer ->
      ~ (Py.lower answer = "y"%string \/ Py.lower answer = "yes"%string) ->
      (In Configurator.Prompted (Configurator.trace env) ->
       Configurator.exit_code env = 0)
      /\ forall e, In e (Configurator.trace env) -> Configurator.is_put e = false)
  /\ (forall answer,
         Configurator.stdin env = Configurator.Line answer ->
         Py.lower answer = "y"%string \/ Py.lower answer = "yes"%string ->
         In Configurator.Prompted (Configurator.trace env) ->
         In (Configurator.Sent
               {| Configurator.meth := Configurator.PUT;
                  Configurator.endpoint := "branches/main/protection";
                  Configurator.payload :=
                    Some (Configurator.protection_data "main"
                            Configurator.main_config) |})
            (Configurator.trace env)).
Proof.
  split.
  - intros answer Hin Hno.
    assert (Hc : Configurator.confirms answer = false).
    { destruct (Configurator.confirms answer) eqn:E; [|reflexivity].
      apply confirms_iff in E. contradiction. }
    split.
    + now apply (declined_exit_0 env answer).
    + apply unconfirmed_no_put. intros s Hs. congruence.
  - intros answer Hin Hyes. apply (confirmed_puts_main env answer Hin).
    now apply confirms_iff.
Qed.

Lemma confirmation_gate_witness :
  Configurator.exit_code (Runs.run_with Runs.willing_api "No") = 0
  /\ forall e,
       In e (Configurator.trace (Runs.run_with Runs.willing_api "No")) ->
       Configurator.is_put e = false.
Proof.
  destruct (proj1 (confirmation_gate (Runs.run_with Runs.willing_api "No"))
              "No"%string eq_refl) as [Hexit Hput].
  - intros [H|H]; discriminate H.
  - split; [apply Hexit | exact Hput].
    vm_compute. tauto.
Defined.

(** ** The configurator: requests that get no answer *)

Section Safe.
Import Configurator.
Variable env : environment.





















End Safe.

(** ** The configurator: fatal errors *)

Section Fatal.
Import Configurator.


(** With a token, the run reaches the request for the repository. *)
Lemma token_found env :
  env_yields_token env = true \/ gh_yields_token env = true ->
  exists token, get_github_token env = Eff.ret token.
Proof.
  unfold env_yields_token, gh_yields_token, get_github_token.
  intros [H|H].
  - destruct (GITHUB_TOKEN env) as [[|c s]|]; try discriminate H. eauto.
  - destruct (GITHUB_TOKEN env) as [[|c s]|]; eauto;
      destruct (gh_auth_token env) as [ | |rc out]; try discriminate H;
      rewrite H; eauto.
Qed.


End Fatal.




(** * Further properties *)

(** ** The refresh timer *)

Section TimerFacts.
Import Countdown.

Lemma seconds_counting_down (n : nat) :
  seconds n {| autoRefresh := true; refreshCountdown := Z.of_nat n |}
  = ({| autoRefresh := true; refreshCountdown := 0 |}, O).
Proof.
  induction n as [|n IH]; [reflexivity|].
  cbn [seconds]. unfold updateCountdown. cbn [autoRefresh refreshCountdown andb].
  replace (0 <? Z.of_nat (S n)) with true by (symmetry; apply Z.ltb_lt; lia).
  replace (Z.of_nat (S n) - 1) with (Z.of_nat n) by lia.
  rewrite IH. reflexivity.
Qed.

Lemma seconds_add (n m : nat) (s : timer) :
  seconds (n + m) s
  = (fst (seconds m (fst (seconds n s))),
     (snd (seconds n s) + snd (seconds m (fst (seconds n s))))%nat).
Proof.
  revert s. induction n as [|n IH]; intros s; cbn [seconds Nat.add].
  - cbn [fst snd]. destruct (seconds m s); reflexivity.
  - destruct (updateCountdown s) as [s1 fired]. rewrite IH.
    destruct (seconds n s1) as [s2 calls]. cbn [fst snd].
    destruct (seconds m s2); cbn [fst snd]. f_equal. lia.
Qed.

Lemma after_bounds (s : timer) (h : happening) :
  0 <= refreshCountdown s <= 30 -> 0 <= refreshCountdown (after s h) <= 30.
Proof.
  intros H. destruct h; cbn [after].
  - unfold updateCountdown. destruct (autoRefresh s); cbn [andb].
    + destruct (Z.ltb_spec 0 (refreshCountdown s)); cbn; lia.
    + assumption.
  - unfold toggleAutoRefresh. cbn. destruct (autoRefresh s); cbn; lia.
  - cbn. lia.
Qed.

End TimerFacts.

(** X1: whatever happens to the page (seconds passing, the pause button,
    answers to the metrics request), the count-down stays between 0 and
    30. *)
Theorem countdown_within_bounds (happenings : list Countdown.happening) :
  0 <= Countdown.refreshCountdown
         (fold_left Countdown.after happenings Countdown.initial) <= 30.
Proof.
  assert (H : 0 <= Countdown.refreshCountdown Countdown.initial <= 30)
    by (cbn; lia).
  revert H. generalize Countdown.initial.
  induction happenings as [|h hs IH]; intros s H; cbn [fold_left].
  - exact H.
  - apply IH. now apply after_bounds.
Qed.

(** X2: with the automatic refresh on and the count-down at [n], the next
    [n] seconds call no refresh and bring the count-down to 0; the second
    after that calls the refresh once and sets the count-down back to 30.
    From 30 the refresh thus comes on the 31st second. *)
Theorem refresh_after_countdown (n : nat) :
  Countdown.seconds n
    {| Countdown.autoRefresh := true; Countdown.refreshCountdown := Z.of_nat n |}
  = ({| Countdown.autoRefresh := true; Countdown.refreshCountdown := 0 |}, O)
  /\ Countdown.seconds (n + 1)
       {| Countdown.autoRefresh := true; Countdown.refreshCountdown := Z.of_nat n |}
     = ({| Countdown.autoRefresh := true; Countdown.refreshCountdown := 30 |}, 1%nat).
Proof.
  split; [apply seconds_counting_down|].
  rewrite seconds_add, seconds_counting_down. reflexivity.
Qed.

(** X3: while the automatic refresh is paused, no second calls the refresh
    or moves the count-down; switching it on again starts from 30. *)
Theorem paused_timer_is_still (n : nat) (count : Z) :
  Countdown.seconds n
    {| Countdown.autoRefresh := false; Countdown.refreshCountdown := count |}
  = ({| Countdown.autoRefresh := false; Countdown.refreshCountdown := count |}, O)
  /\ Countdown.toggleAutoRefresh
       {| Countdown.autoRefresh := false; Countdown.refreshCountdown := count |}
     = Countdown.initial.
Proof.
  split; [|reflexivity].
  induction n as [|n IH]; [reflexivity|].
  cbn [Countdown.seconds]. unfold Countdown.updateCountdown. cbn [Countdown.autoRefresh andb].
  rewrite IH. reflexivity.
Qed.

(** ** The alert feed, for every log *)

Section StripFacts.
Import Shape.

Lemma lstrip_starts (s : string) : starts_blank (Py.lstrip s) = false.
Proof.
  induction s as [|c r IH]; [reflexivity|].
  cbn [Py.lstrip]. destruct (Py.is_space c) eqn:E; [exact IH|].
  cbn. exact E.
Qed.

Lemma rstrip_ends (s : string) : ends_blank (Py.rstrip s) = false.
Proof.
  induction s as [|c r IH]; [reflexivity|].
  cbn [Py.rstrip]. destruct (Py.rstrip r) as [|c' r'] eqn:E.
  - destruct (Py.is_space c) eqn:Ec; cbn; [reflexivity | exact Ec].
  - cbn [ends_blank]. exact IH.
Qed.

Lemma rstrip_starts (s : string) :
  starts_blank s = false -> starts_blank (Py.rstrip s) = false.
Proof.
  destruct s as [|c r]; [reflexivity|]. cbn [starts_blank Py.rstrip].
  intros Hc. destruct (Py.rstrip r).
  - rewrite Hc. exact Hc.
  - exact Hc.
Qed.

Lemma strip_shape (s : string) :
  starts_blank (Py.strip s) = false /\ ends_blank (Py.strip s) = false.
Proof.
  unfold Py.strip. split.
  - apply rstrip_starts, lstrip_starts.
  - apply rstrip_ends.
Qed.

End StripFacts.

Section AlertShape.
Import Dashboard Shape.

Lemma filter_shorter {A} (f : A -> bool) (l : list A) :
  (List.length (filter f l) <= List.length l)%nat.
Proof.
  induction l as [|x l IH]; cbn; [lia|]. destruct (f x); cbn; lia.
Qed.

Lemma tail_alerts_short (lines : list string) :
  (List.length (tail_alerts lines) <= 10)%nat.
Proof.
  unfold tail_alerts, last_n. rewrite length_map.
  etransitivity; [apply filter_shorter|]. rewrite length_skipn. lia.
Qed.

Lemma tail_alerts_stripped (lines : list string) (a : string) :
  In a (tail_alerts lines) ->
  a <> ""%string /\ starts_blank a = false /\ ends_blank a = false.
Proof.
  unfold tail_alerts. rewrite in_map_iff. intros (line & <- & Hin).
  apply filter_In in Hin as [_ Hline]. unfold nonblank in Hline.
  split; [|apply strip_shape].
  intros E. rewrite E in Hline. discriminate Hline.
Qed.

Lemma tail_alerts_suffix (lines : list string) :
  is_suffix (tail_alerts lines) (map Py.strip (filter nonblank lines)).
Proof.
  unfold tail_alerts, last_n.
  exists (map Py.strip
            (filter nonblank (firstn (List.length lines - 10) lines))).
  rewrite <- map_app, <- filter_app, firstn_skipn. reflexivity.
Qed.

End AlertShape.

(** X4: whatever the alert log holds, the metrics request returns at most
    ten alerts; each is non-empty and carries no white space at either
    end; together they are the end of the file's non-empty lines, in file
    order.  A missing or unreadable log gives no alert. *)
Theorem alerts_shape (f : Dashboard.fs) :
  (List.length (Dashboard.read_alerts f) <= 10)%nat
  /\ (forall a, In a (Dashboard.read_alerts f) ->
        a <> ""%string
        /\ Shape.starts_blank a = false /\ Shape.ends_blank a = false)
  /\ (forall s, Dashboard.alerts_log f = Dashboard.Text s ->
        Shape.is_suffix (Dashboard.read_alerts f)
          (map Py.strip
             (filter Dashboard.nonblank (Dashboard.readlines s))))
  /\ (Dashboard.alerts_log f = Dashboard.NoFile
      \/ Dashboard.alerts_log f = Dashboard.Unreadable ->
      Dashboard.read_alerts f = []).
Proof.
  unfold Dashboard.read_alerts.
  destruct (Dashboard.alerts_log f) as [ | |s].
  - repeat split; cbn; try lia; try contradiction. intros s [=].
  - repeat split; cbn; try lia; try contradiction. intros s [=].
  - split; [apply tail_alerts_short|].
    split; [apply tail_alerts_stripped|].
    split.
    + intros s' [= <-]. apply tail_alerts_suffix.
    + intros [[=]|[=]].
Qed.

(** ** The trend, for every history *)

Section TrendExact.
Import Dashboard.
Variable fromisoformat : string -> option datetime.

(** What one entry contributes. *)
Lemma trend_step_point cutoff metric entry p :
  In p (trend_step fromisoformat cutoff metric entry)
  <-> exists fields ts us,
        entry = JObj fields
        /\ lookup "timestamp" fields = Some (JStr ts)
        /\ fromisoformat (Py.replace_char "Z" "+00:00" ts) = Some (Naive us)
        /\ cutoff <= us
        /\ p = JObj [("timestamp", JStr ts);
                     ("value", match lookup metric fields with
                               | Some v => v
                               | None => JInt 0
                               end)].
Proof.
  unfold trend_step, try_entry. split.
  - destruct entry as [ | | | | | |fields]; cbn; try contradiction.
    destruct (lookup "timestamp" fields) as [v|] eqn:Hts.
    + destruct v as [ | | | |ts| | ]; cbn; try contradiction.
      destruct (fromisoformat (Py.replace_char "Z" "+00:00" ts))
        as [[us|us off]|] eqn:Hp; cbn; try contradiction.
      destruct (Z.leb_spec cutoff us); cbn; [|contradiction].
      intros [<-|[]]. exists fields, ts, us. auto.
    + destruct (fromisoformat (Py.replace_char "Z" "+00:00" ""))
        as [[us|us off]|]; cbn; try contradiction.
      destruct (cutoff <=? us); cbn; contradiction.
  - intros (fields & ts & us & -> & Hts & Hp & Hle & ->).
    cbn [get getitem Py.bind_res]. rewrite Hts, Hp. cbn [ge_naive Py.bind_res].
    apply Z.leb_le in Hle. rewrite Hle. now left.
Qed.

Lemma trend_step_short cutoff metric entry :
  (List.length (trend_step fromisoformat cutoff metric entry) <= 1)%nat.
Proof.
  unfold trend_step. destruct (try_entry _ _ _ _) as [e|[p|]]; cbn; lia.
Qed.

Lemma flat_map_short {A B} (f : A -> list B) (l : list A) :
  (forall x, (List.length (f x) <= 1)%nat) ->
  (List.length (flat_map f l) <= List.length l)%nat.
Proof.
  intros Hf. induction l as [|x l IH]; cbn; [lia|].
  rewrite length_app. specialize (Hf x). lia.
Qed.

End TrendExact.

(** X5: for a state whose history is a list, the trend is computed without
    an exception and has at most one point per entry.  Its points are
    exactly those of the entries that are objects with a string time stamp
    which, after the final Z is rewritten, parses to a time without offset
    that is not before the cut-off; the value is the entry's figure for the
    metric, or 0. *)
Theorem trend_points_exactly
  (fromisoformat : string -> option Dashboard.datetime)
  (now hours : Z) (metric : string)
  (state : list (string * json)) (history : list json) :
  lookup "metrics_history" state = Some (JArr history) ->
  exists points,
    Dashboard.get_trend_data fromisoformat now (JObj state) metric hours
    = inr points
    /\ (List.length points <= List.length history)%nat
    /\ forall p,
         In p points
         <-> exists fields ts us,
               In (JObj fields) history
               /\ lookup "timestamp" fields = Some (JStr ts)
               /\ fromisoformat (Py.replace_char "Z" "+00:00" ts)
                  = Some (Dashboard.Naive us)
               /\ now - hours * Dashboard.HOUR_US <= us
               /\ p = JObj [("timestamp", JStr ts);
                            ("value", match lookup metric fields with
                                      | Some v => v
                                      | None => JInt 0
                                      end)].
Proof.
  intros Hh. eexists. split; [apply get_trend_data_of_list, Hh|].
  split; [apply flat_map_short, trend_step_short|].
  intros p. rewrite in_flat_map. split.
  - intros (entry & Hin & Hp). apply trend_step_point in Hp
      as (fields & ts & us & -> & H). exists fields, ts, us. tauto.
  - intros (fields & ts & us & Hin & H). exists (JObj fields).
    split; [exact Hin|]. apply trend_step_point. exists fields, ts, us. tauto.
Qed.

Lemma trend_points_exactly_witness :
  exists points,
    Dashboard.get_trend_data Dashboard.fromisoformat_seconds Samples.noon
      (Samples.state_with [Samples.utc_entry; Samples.partial_entry])
      "build_time" 24
    = inr points
    /\ (List.length points <= 2)%nat
    /\ forall p,
         In p points
         <-> exists fields ts us,
               In (JObj fields) [Samples.utc_entry; Samples.partial_entry]
               /\ lookup "timestamp" fields = Some (JStr ts)
               /\ Dashboard.fromisoformat_seconds
                    (Py.replace_char "Z" "+00:00" ts)
                  = Some (Dashboard.Naive us)
               /\ Samples.noon - 24 * Dashboard.HOUR_US <= us
               /\ p = JObj [("timestamp", JStr ts);
                            ("value", match lookup "build_time" fields with
                                      | Some v => v
                                      | None => JInt 0
                                      end)].
Proof.
  apply (trend_points_exactly Dashboard.fromisoformat_seconds Samples.noon 24
           "build_time"
           [("consecutive_failures", JInt 0);
            ("last_successful_run", JStr "2026-11-04T11:30:00Z");
            ("metrics_history",
             JArr [Samples.utc_entry; Samples.partial_entry])]
           [Samples.utc_entry; Samples.partial_entry]).
  reflexivity.
Defined.

(** ** The metrics request, by the shape of the state *)

Section MetricsShape.
Import Dashboard.
Variable fromisoformat : string -> option datetime.

Lemma get_latest_of_list state earlier e :
  lookup "metrics_history" state = Some (JArr (earlier ++ [e])) ->
  get_latest_metrics (JObj state) = inr e.
Proof.
  intros H. unfold get_latest_metrics. cbn [get getitem Py.bind_res].
  rewrite H. cbn [Py.bind_res].
  replace (truthy (JArr (earlier ++ [e]))) with true
    by (destruct earlier; reflexivity).
  cbn [last_item]. rewrite rev_app_distr. reflexivity.
Qed.

Lemma trend_of_list w state history metric :
  data w = JObj state ->
  lookup "metrics_history" state = Some (JArr history) ->
  trend fromisoformat metric w
  = (Eff.Ret (JArr (flat_map
                      (trend_step fromisoformat (now w - 24 * HOUR_US) metric)
                      history)), w).
Proof.
  intros Hd Hh. unfold trend.
  rewrite Hd, (get_trend_data_of_list _ _ _ _ _ _ Hh). reflexivity.
Qed.

End MetricsShape.

(** X6: when the state is an object whose history is a non-empty list, the
    metrics request succeeds and changes nothing; its [latest] is the last
    entry of the history, whatever that entry is, and its [status] is the
    state's [consecutive_failures], or 0 when the state has none. *)
Theorem latest_is_last_entry
  (fromisoformat : string -> option Dashboard.datetime) (w : Dashboard.world)
  (state : list (string * json)) (earlier : list json) (e : json) :
  Dashboard.data w = JObj state ->
  lookup "metrics_history" state = Some (JArr (earlier ++ [e])) ->
  exists build_time test_time coverage memory_mb,
    Dashboard.get_metrics fromisoformat w
    = (Eff.Ret
         (JObj [("latest", e);
                ("trends", JObj [("build_time", JArr build_time);
                                 ("test_time", JArr test_time);
                                 ("coverage", JArr coverage);
                                 ("memory_mb", JArr memory_mb)]);
                ("alerts",
                 JArr (map JStr (Dashboard.read_alerts (Dashboard.files w))));
                ("status", match lookup "consecutive_failures" state with
                           | Some n => n
                           | None => JInt 0
                           end)]),
       w).
Proof.
  intros Hd Hh. do 4 eexists.
  unfold Dashboard.get_metrics, Eff.bind.
  rewrite Hd, (get_latest_of_list _ _ _ Hh). cbn [Eff.lift Eff.ret].
  rewrite !(trend_of_list fromisoformat w state _ _ Hd Hh).
  unfold Eff.gets, Eff.ret. rewrite Hd. reflexivity.
Qed.

Lemma latest_is_last_entry_witness :
  exists build_time test_time coverage memory_mb,
    Dashboard.get_metrics Dashboard.fromisoformat_seconds
      {| Dashboard.files := Samples.empty_fs;
         Dashboard.data :=
           Samples.state_with [Samples.naive_entry; Samples.partial_entry];
         Dashboard.now := Samples.noon |}
    = (Eff.Ret
         (JObj [("latest", Samples.partial_entry);
                ("trends", JObj [("build_time", JArr build_time);
                                 ("test_time", JArr test_time);
                                 ("coverage", JArr coverage);
                                 ("memory_mb", JArr memory_mb)]);
                ("alerts", JArr []);
                ("status", JInt 0)]),
       {| Dashboard.files := Samples.empty_fs;
          Dashboard.data :=
            Samples.state_with [Samples.naive_entry; Samples.partial_entry];
          Dashboard.now := Samples.noon |}).
Proof.
  apply (latest_is_last_entry Dashboard.fromisoformat_seconds
           {| Dashboard.files := Samples.empty_fs;
              Dashboard.data :=
                Samples.state_with [Samples.naive_entry; Samples.partial_entry];
              Dashboard.now := Samples.noon |}
           [("consecutive_failures", JInt 0);
            ("last_successful_run", JStr "2026-11-04T11:30:00Z");
            ("metrics_history",
             JArr [Samples.naive_entry; Samples.partial_entry])]
           [Samples.naive_entry] Samples.partial_entry);
    reflexivity.
Defined.

(** X7: a state file that decodes, but not to the expected shape, makes
    the metrics request fail after the next load.  When it decodes to
    anything but an object, the request raises AttributeError; when it is an
    object whose [metrics_history] is None, a boolean or a number, it raises
    TypeError; when the history is a non-empty object, it raises KeyError. *)
Theorem metrics_fail_on_malformed_state
  (fromisoformat : string -> option Dashboard.datetime)
  (w : Dashboard.world) (j : json) :
  Dashboard.STATE_FILE (Dashboard.files w) = Dashboard.Holds j ->
  (Shape.is_object j = false ->
   fst (Dashboard.get_metrics fromisoformat (snd (Dashboard.load_data w)))
   = Eff.Raise Py.AttributeError)
  /\ (forall state h,
        j = JObj state -> lookup "metrics_history" state = Some h ->
        Shape.scalar h = true ->
        fst (Dashboard.get_metrics fromisoformat (snd (Dashboard.load_data w)))
        = Eff.Raise Py.TypeError)
  /\ (forall state first rest,
        j = JObj state ->
        lookup "metrics_history" state = Some (JObj (first :: rest)) ->
        fst (Dashboard.get_metrics fromisoformat (snd (Dashboard.load_data w)))
        = Eff.Raise Py.KeyError).
Proof.
  intros Hf. rewrite load_data_spec, Hf. cbn [snd].
  unfold Dashboard.get_metrics, Eff.bind, Dashboard.get_latest_metrics,
    Dashboard.trend, Dashboard.get_trend_data.
  cbn [Dashboard.data Dashboard.set_data].
  split; [|split].
  - intros Hj. destruct j; try discriminate Hj; reflexivity.
  - intros state h -> Hh Hs. cbn [get getitem Py.bind_res]. rewrite Hh.
    destruct h as [ |b|z|f| | | ]; try discriminate Hs; cbn.
    + rewrite Hh. reflexivity.
    + destruct b; cbn; rewrite ?Hh; reflexivity.
    + destruct (z =? 0); cbn; rewrite ?Hh; reflexivity.
    + destruct (PrimFloat.eqb f 0); cbn; rewrite ?Hh; reflexivity.
  - intros state first rest -> Hh. cbn [get getitem Py.bind_res]. rewrite Hh.
    cbn. rewrite ?Hh. reflexivity.
Qed.

Lemma metrics_fail_on_malformed_state_witness :
  fst (Dashboard.get_metrics Dashboard.fromisoformat_seconds
         (snd (Dashboard.load_data
                 {| Dashboard.files :=
                      {| Dashboard.STATE_FILE := Dashboard.Holds (JArr []);
                         Dashboard.alerts_log := Dashboard.NoFile;
                         Dashboard.PERFORMANCE_DIR := Dashboard.IsDir;
                         Dashboard.DASHBOARD_DIR := Dashboard.IsDir |};
                    Dashboard.data := JObj [];
                    Dashboard.now := Samples.noon |})))
  = Eff.Raise Py.AttributeError.
Proof.
  apply (proj1 (metrics_fail_on_malformed_state Dashboard.fromisoformat_seconds
                  {| Dashboard.files :=
                       {| Dashboard.STATE_FILE := Dashboard.Holds (JArr []);
                          Dashboard.alerts_log := Dashboard.NoFile;
                          Dashboard.PERFORMANCE_DIR := Dashboard.IsDir;
                          Dashboard.DASHBOARD_DIR := Dashboard.IsDir |};
                     Dashboard.data := JObj [];
                     Dashboard.now := Samples.noon |}
                  (JArr []) eq_refl));
    reflexivity.
Defined.

(** ** Refreshing and starting *)


(** X9: the start succeeds exactly when neither directory path is taken by
    a file; both directories exist afterwards and the alert log is as it
    was.  It raises OSError when one of the paths is a file. *)
Theorem startup_directories (w : Dashboard.world) :
  (Dashboard.PERFORMANCE_DIR (Dashboard.files w) <> Dashboard.IsFile ->
   Dashboard.DASHBOARD_DIR (Dashboard.files w) <> Dashboard.IsFile ->
   fst (Dashboard.startup w) = Eff.Ret tt
   /\ Dashboard.PERFORMANCE_DIR (Dashboard.files (snd (Dashboard.startup w)))
      = Dashboard.IsDir
   /\ Dashboard.DASHBOARD_DIR (Dashboard.files (snd (Dashboard.startup w)))
      = Dashboard.IsDir
   /\ Dashboard.alerts_log (Dashboard.files (snd (Dashboard.startup w)))
      = Dashboard.alerts_log (Dashboard.files w))
  /\ (Dashboard.PERFORMANCE_DIR (Dashboard.files w) = Dashboard.IsFile
      \/ Dashboard.DASHBOARD_DIR (Dashboard.files w) = Dashboard.IsFile ->
      fst (Dashboard.startup w) = Eff.Raise Py.OSError).
Proof.
  unfold Dashboard.startup, Eff.bind, Eff.modify. rewrite load_data_spec.
  unfold Dashboard.mkdir_exist_ok. cbn [Dashboard.files Dashboard.set_data].
  destruct (Dashboard.PERFORMANCE_DIR (Dashboard.files w)) eqn:Ep; cbn;
    rewrite ?Ep;
    destruct (Dashboard.DASHBOARD_DIR (Dashboard.files w)) eqn:Ed; cbn;
    rewrite ?Ep, ?Ed;
    (split; [intros H1 H2; try (now elim H1); try (now elim H2);
             repeat split; reflexivity
            | intros [H|H]; try discriminate H; reflexivity]).
Qed.

(** ** The configurator: the order of the requests *)

Section Conducts.
Import Configurator Plan.
Variable env : environment.

Lemma sent_app (t1 t2 : list event) : sent (t1 ++ t2) = sent t1 ++ sent t2.
Proof.
  induction t1 as [|e t1 IH]; [reflexivity|].
  destruct e; cbn; rewrite IH; reflexivity.
Qed.

Lemma conducts_ret {A} (a : A) : conducts (Eff.ret a) [].
Proof.
  intros t. exists O. cbn. rewrite app_nil_r.
  repeat split; auto; discriminate.
Qed.

Lemma conducts_raise {A} (e : Py.exn) rs : conducts (@Eff.raise state A e) rs.
Proof.
  intros t. exists O. cbn. rewrite app_nil_r.
  repeat split; try lia; discriminate.
Qed.

Lemma conducts_exit_1 {A} rs : conducts (@Eff.sys_exit state A 1) rs.
Proof.
  intros t. exists O. cbn. rewrite app_nil_r.
  repeat split; try lia; try discriminate. now intros c [= <-].
Qed.

Lemma conducts_lift {A} (r : Py.res A) : conducts (Eff.lift r) [].
Proof. destruct r; [apply conducts_raise | apply conducts_ret]. Qed.

Lemma conducts_response_json r : conducts (response_json r) [].
Proof.
  unfold response_json.
  destruct (json_body r); [apply conducts_ret | apply conducts_raise].
Qed.

Lemma conducts_print text args : conducts (print text args) [].
Proof.
  intros t. exists O. cbn. rewrite sent_app, !app_nil_r.
  repeat split; auto; discriminate.
Qed.

Lemma conducts_sleep seconds : conducts (sleep seconds) [].
Proof.
  intros t. exists O. cbn. rewrite sent_app, !app_nil_r.
  repeat split; auto; discriminate.
Qed.

Lemma conducts_bind {A B} (m : Eff.M state A) (k : A -> Eff.M state B) rs1 rs2 :
  conducts m rs1 -> (forall a, conducts (k a) rs2) ->
  conducts (Eff.bind m k) (rs1 ++ rs2).
Proof.
  intros Hm Hk t. unfold Eff.bind.
  destruct (Hm t) as (k1 & Hle & Hs & Hret & Hexit).
  destruct (m t) as [[a|e|c] t1]; cbn [fst snd] in *.
  - rewrite (Hret a eq_refl) in Hs.
    destruct (Hk a t1) as (k2 & Hle2 & Hs2 & Hret2 & Hexit2).
    exists (List.length rs1 + k2)%nat. rewrite length_app.
    split; [lia|]. split; [|split].
    + rewrite Hs2, Hs, <- app_assoc, firstn_app_2, firstn_all. reflexivity.
    + intros b Hb. rewrite (Hret2 b Hb). reflexivity.
    + exact Hexit2.
  - exists k1. rewrite length_app. split; [lia|]. split; [|split].
    + rewrite Hs, firstn_app.
      replace (k1 - List.length rs1)%nat with O by lia.
      cbn. now rewrite app_nil_r.
    + discriminate.
    + discriminate.
  - exists k1. rewrite length_app. split; [lia|]. split; [|split].
    + rewrite Hs, firstn_app.
      replace (k1 - List.length rs1)%nat with O by lia.
      cbn. now rewrite app_nil_r.
    + discriminate.
    + intros c' [= <-]. now apply Hexit.
Qed.

Lemma conducts_silent_bind {A B} (m : Eff.M state A) (k : A -> Eff.M state B) rs :
  conducts m [] -> (forall a, conducts (k a) rs) -> conducts (Eff.bind m k) rs.
Proof. intros Hm Hk. exact (conducts_bind m k [] rs Hm Hk). Qed.

Lemma conducts_try {A} (m : Eff.M state A) (h : Py.exn -> Eff.M state A) :
  conducts m [] -> (forall e, conducts (h e) []) ->
  conducts (Eff.try_except m h) [].
Proof.
  intros Hm Hh t. unfold Eff.try_except.
  destruct (Hm t) as (k1 & Hle & Hs & Hret & Hexit).
  destruct (m t) as [[a|e|c] t1]; cbn [fst snd] in *.
  - exists k1. auto.
  - destruct (Py.is_Exception e).
    + destruct (Hh e t1) as (k2 & Hle2 & Hs2 & Hret2 & Hexit2).
      exists O. cbn in *. replace k1 with O in Hs by lia.
      replace k2 with O in Hs2 by lia. cbn in *.
      rewrite app_nil_r in *. split; [lia|]. split; [congruence|].
      split; [|exact Hexit2]. intros a Ha. reflexivity.
    + exists k1. repeat split; auto; discriminate.
  - exists k1. auto.
Qed.

Lemma conducts_make_request m endpoint data :
  conducts (_make_request env m endpoint data)
    [{| meth := m; endpoint := endpoint;
        payload := match m with PUT | POST => data | _ => None end |}].
Proof.
  intros t. unfold _make_request.
  destruct (api env (sent t) _).
  - exists 1%nat. cbn. rewrite sent_app. cbn.
    repeat split; auto; discriminate.
  - exists 1%nat. cbn. rewrite !sent_app. cbn. rewrite app_nil_r.
    repeat split; auto; try discriminate. now intros c [= <-].
Qed.

Lemma conducts_request_bind {B} m endpoint data
  (k : response -> Eff.M state B) rs :
  (forall resp, conducts (k resp) rs) ->
  conducts (Eff.bind (_make_request env m endpoint data) k)
    ({| meth := m; endpoint := endpoint;
        payload := match m with PUT | POST => data | _ => None end |} :: rs).
Proof.
  intros Hk.
  exact (conducts_bind _ k [_] rs (conducts_make_request m endpoint data) Hk).
Qed.

Ltac conducts_step :=
  first
    [ apply conducts_ret | apply conducts_raise | apply conducts_exit_1
    | apply conducts_lift | apply conducts_response_json
    | apply conducts_print | apply conducts_sleep
    | apply conducts_request_bind; intros ?
    | apply conducts_silent_bind; [ | intros ? ]
    | match goal with
      | |- conducts (if ?b then _ else _) _ => destruct b
      | |- conducts (match ?x with _ => _ end) _ => destruct x
      end ].

Lemma conducts_get_github_token : conducts (get_github_token env) [].
Proof. unfold get_github_token. repeat conducts_step. Qed.

Lemma conducts_verify_branch branch :
  conducts (verify_branch env branch) [protection_request branch].
Proof.
  unfold verify_branch, get_branch_protection.
  apply (conducts_bind _ _ [protection_request branch] []);
    [ | intros ?; repeat conducts_step ].
  unfold protection_request.
  apply (conducts_request_bind GET _ None _ []). intros resp.
  repeat conducts_step.
Qed.

Lemma conducts_verify_protection_status branches :
  conducts (verify_protection_status env branches) (reads branches).
Proof.
  unfold verify_protection_status.
  apply conducts_silent_bind; [apply conducts_print | intros _].
  rewrite <- (app_nil_r (reads branches)).
  apply conducts_bind; [ | intros _; apply conducts_print ].
  induction branches as [|b r IH]; cbn [for_each].
  - apply conducts_ret.
  - apply (conducts_bind _ _ [protection_request b] (reads r));
      [apply conducts_verify_branch | intros _; exact IH].
Qed.

Lemma conducts_prepare :
  conducts (prepare env (map fst create_branch_configs)) requests_before_prompt.
Proof.
  unfold prepare.
  do 4 (apply conducts_silent_bind; [apply conducts_print | intros _]).
  apply conducts_silent_bind.
  { apply conducts_try.
    - apply conducts_silent_bind; [apply conducts_get_github_token | intros ?].
      repeat conducts_step.
    - intros e. repeat conducts_step. }
  intros _.
  apply (conducts_bind _ _ [repo_info_request]
           (reads (map fst create_branch_configs)));
    [ | intros _; apply conducts_verify_protection_status ].
  unfold print_repository_summary, get_repository_info.
  apply conducts_silent_bind; [apply conducts_print | intros _].
  apply (conducts_bind _ _ [repo_info_request] []);
    [ | intros ?; repeat conducts_step ].
  unfold repo_info_request.
  apply (conducts_request_bind GET _ None _ []). intros resp.
  repeat conducts_step.
Qed.

Lemma conducts_apply_protection configs success_count :
  conducts (apply_protection env configs success_count)
    (map put_protection_request configs).
Proof.
  revert success_count.
  induction configs as [|[branch config] rest IH]; intros success_count;
    cbn [apply_protection map].
  - apply conducts_ret.
  - unfold set_branch_protection.
    change (put_protection_request (branch, config)
            :: map put_protection_request rest)
      with ([put_protection_request (branch, config)]
            ++ map put_protection_request rest).
    apply conducts_bind.
    + apply conducts_silent_bind; [apply conducts_print | intros _].
      unfold put_protection_request. cbn [fst snd].
      apply (conducts_request_bind PUT _ (Some _) _ []). intros resp.
      repeat conducts_step.
    + intros ok. apply conducts_silent_bind.
      * destruct ok; repeat conducts_step.
      * intros n. apply conducts_silent_bind; [apply conducts_print | intros _].
        apply IH.
Qed.

Lemma conducts_apply_changes :
  conducts (apply_changes env create_branch_configs
              (map fst create_branch_configs))
    requests_after_prompt.
Proof.
  unfold apply_changes, requests_after_prompt.
  do 3 (apply conducts_silent_bind; [apply conducts_print | intros _]).
  apply conducts_bind; [apply conducts_apply_protection | intros n].
  apply conducts_silent_bind; [apply conducts_print | intros _].
  unfold enable_vulnerability_alerts, enable_automated_security_fixes.
  change ([put_request "vulnerability-alerts";
           put_request "automated-security-fixes"]
          ++ reads (map fst create_branch_configs))
    with ([put_request "vulnerability-alerts"]
          ++ [put_request "automated-security-fixes"]
          ++ reads (map fst create_branch_configs)).
  apply conducts_bind.
  { unfold put_request. apply (conducts_request_bind PUT _ None _ []).
    intros resp. apply conducts_ret. }
  intros ok1.
  apply conducts_silent_bind; [destruct ok1; apply conducts_print | intros _].
  apply conducts_bind.
  { unfold put_request. apply (conducts_request_bind PUT _ None _ []).
    intros resp. apply conducts_ret. }
  intros ok2.
  apply conducts_silent_bind; [destruct ok2; apply conducts_print | intros _].
  do 2 (apply conducts_silent_bind; [apply conducts_print | intros _]).
  rewrite <- (app_nil_r (reads _)).
  apply conducts_bind; [apply conducts_verify_protection_status | intros _].
  repeat conducts_step.
Qed.

End Conducts.

Section PlanFacts.
Import Configurator Plan.
Variable env : environment.

Lemma plan_first_part k :
  (k <= List.length requests_before_prompt)%nat ->
  firstn k requests_before_prompt = firstn k planned_requests.
Proof.
  intros H. unfold planned_requests. rewrite firstn_app.
  replace (k - List.length requests_before_prompt)%nat with O by lia.
  cbn [firstn]. now rewrite app_nil_r.
Qed.

Lemma plan_second_part k :
  requests_before_prompt ++ firstn k requests_after_prompt
  = firstn (3 + k) planned_requests.
Proof.
  unfold planned_requests.
  change (3 + k)%nat with (List.length requests_before_prompt + k)%nat.
  now rewrite firstn_app_2.
Qed.

Lemma sent_snoc_printed t text args : sent (t ++ [Printed text args]) = sent t.
Proof. rewrite sent_app. cbn. apply app_nil_r. Qed.

Lemma sent_snoc_prompted t : sent (t ++ [Prompted]) = sent t.
Proof. rewrite sent_app. cbn. apply app_nil_r. Qed.

(** X10: in every run, whatever the environment, the API and the input,
    the requests sent are a first part of one fixed sequence of nine: the
    read of the repository, the reads of the protection of [main] and
    [develop], the PUT of the protection of [main] and of [develop], the two
    PUTs of the security features, and the two reads again.  No request is
    sent twice in a row as a retry, and nothing else is ever sent.  The exit
    code is 0 or 1, and it is 0 only after the first three requests (the run
    was declined at the prompt) or after all nine. *)
Theorem requests_follow_plan :
  exists k,
    (k <= 9)%nat
    /\ sent (trace env) = firstn k planned_requests
    /\ (exit_code env = 0 \/ exit_code env = 1)
    /\ (exit_code env = 0 -> k = 3%nat \/ k = 9%nat).
Proof.
  unfold trace, exit_code, script, main, Eff.bind.
  destruct (conducts_prepare env []) as (k1 & Hle & Hs & Hret & Hexit).
  cbn [app] in Hs. change (List.length requests_before_prompt) with 3%nat in *.
  destruct (prepare env (map fst create_branch_configs) []) as [[u|e|c] t1];
    cbn [fst snd] in *.
  - rewrite (Hret u eq_refl) in Hs. cbn [firstn] in Hs.
    change (firstn 3 requests_before_prompt) with requests_before_prompt in Hs.
    unfold input. destruct (stdin env) as [s| |].
    + destruct (Py.str_in (Py.lower s) ["y"%string; "yes"%string]); cbn [negb].
      * destruct (conducts_apply_changes env (t1 ++ [Prompted]))
          as (k2 & Hle2 & Hs2 & Hret2 & Hexit2).
        change (List.length requests_after_prompt) with 6%nat in *.
        rewrite sent_snoc_prompted, Hs, plan_second_part in Hs2.
        destruct (apply_changes env create_branch_configs
                    (map fst create_branch_configs) (t1 ++ [Prompted]))
          as [[u'|e|c] t2]; cbn [fst snd] in *.
        -- exists (3 + k2)%nat. rewrite (Hret2 u' eq_refl) in *.
           repeat split; auto; lia.
        -- exists (3 + k2)%nat.
           destruct (Py.is_Exception e); cbn [fst snd];
             rewrite sent_snoc_printed;
             repeat split; auto; try lia; discriminate.
        -- exists (3 + k2)%nat. rewrite (Hexit2 c eq_refl).
           repeat split; auto; try lia; discriminate.
      * exists 3%nat. cbn [fst snd].
        unfold print, Eff.modify, Eff.sys_exit. cbn [fst snd].
        rewrite sent_snoc_printed, sent_snoc_prompted, Hs.
        repeat split; auto. lia.
    + exists 3%nat. cbn [fst snd Py.is_Exception].
      rewrite sent_snoc_printed, sent_snoc_prompted, Hs.
      repeat split; auto; try lia; discriminate.
    + exists 3%nat. cbn [fst snd Py.is_Exception].
      rewrite sent_snoc_printed, sent_snoc_prompted, Hs.
      repeat split; auto; try lia; discriminate.
  - exists k1. rewrite <- plan_first_part by exact Hle.
    destruct (Py.is_Exception e); cbn [fst snd];
      rewrite sent_snoc_printed;
      repeat split; auto; try lia; discriminate.
  - exists k1. rewrite <- plan_first_part by exact Hle.
    rewrite (Hexit c eq_refl).
    repeat split; auto; try lia; discriminate.
Qed.

End PlanFacts.

(** ** The configurator: nothing is changed before the prompt *)

Section PromptFirst.
Import Configurator Plan.
Variable env : environment.

(** The trace of a run: the preparation, then either nothing that changes
    the repository, or the prompt and what follows it. *)
Lemma trace_shape :
  exists evs tail,
    trace env = evs ++ tail
    /\ forallb preparatory evs = true
    /\ quiet_tail tail.
Proof.
  unfold trace, script, main, Eff.bind.
  destruct (prepare_trace env) as (evs & Ht & Hok).
  destruct (prepare env (map fst create_branch_configs) []) as [[u|x|c] t1];
    cbn [snd] in Ht; subst t1.
  - unfold input. destruct (stdin env) as [s| |].
    + destruct (Py.str_in (Py.lower s) ["y"%string; "yes"%string]); cbn [negb].
      * destruct (grows_apply_changes_rest env create_branch_configs
                    (map fst create_branch_configs) (evs ++ [Prompted]))
          as (evs' & He & _).
        destruct (apply_changes env create_branch_configs
                    (map fst create_branch_configs) (evs ++ [Prompted]))
          as [[u'|x|c] t2]; cbn [snd] in *; subst t2.
        -- exists evs, (Prompted :: evs'). rewrite <- app_assoc.
           repeat split; auto. left. eauto.
        -- exists evs.
           destruct (Py.is_Exception x); cbn [snd]; eexists;
             (split; [rewrite <- !app_assoc; cbn [app]; reflexivity|]);
             (split; [exact Hok | left; eauto]).
        -- exists evs, (Prompted :: evs'). rewrite <- app_assoc.
           repeat split; auto. left. eauto.
      * cbn. exists evs. eexists.
        split; [rewrite <- !app_assoc; cbn [app]; reflexivity|].
        split; [exact Hok | left; eauto].
    + cbn. exists evs. eexists.
      split; [rewrite <- !app_assoc; cbn [app]; reflexivity|].
      split; [exact Hok | left; eauto].
    + cbn. exists evs. eexists.
      split; [rewrite <- !app_assoc; cbn [app]; reflexivity|].
      split; [exact Hok | left; eauto].
  - exists evs. destruct (Py.is_Exception x); cbn [snd]; eexists;
      (split; [reflexivity|]); (split; [exact Hok | right; reflexivity]).
  - exists evs, []. cbn [snd]. rewrite app_nil_r.
    repeat split; auto. right. reflexivity.
Qed.

(** X11: in every run, each PUT comes after the prompt: nothing is changed
    on the repository before the user was asked. *)
Theorem no_put_before_prompt (before after : list event) (e : event) :
  trace env = before ++ e :: after ->
  is_put e = true ->
  In Prompted before.
Proof.
  intros Ht Hput.
  destruct trace_shape as (evs & tail & Hs & Hok & Htail).
  rewrite Hs in Ht. apply app_eq_app in Ht as (l & [[He Hl]|[Hb Hl]]).
  - destruct l as [|x l].
    + cbn in Hl. rewrite app_nil_r in He. subst.
      destruct Htail as [(more & [= -> _])|Hq]; [discriminate Hput|].
      cbn in Hq. rewrite Hput in Hq. discriminate Hq.
    + injection Hl as <- _.
      assert (Hin : In e evs) by (rewrite He; apply in_or_app; right; now left).
      destruct (preparatory_not_put evs e Hok Hin) as [Hn _]. congruence.
  - destruct Htail as [(more & ->)|Hq].
    + destruct l as [|x l]; cbn in Hl.
      * injection Hl as <- _. discriminate Hput.
      * injection Hl as <- _. rewrite Hb. apply in_or_app. right. now left.
    + rewrite Hl, forallb_app in Hq. cbn in Hq. rewrite Hput in Hq.
      cbn in Hq. rewrite andb_false_r in Hq. discriminate Hq.
Qed.

End PromptFirst.

Lemma no_put_before_prompt_witness :
  In Configurator.Prompted
     (firstn 25 (Configurator.trace (Runs.run_with Runs.willing_api "yes"))).
Proof.
  apply (no_put_before_prompt (Runs.run_with Runs.willing_api "yes")
           (firstn 25 (Configurator.trace (Runs.run_with Runs.willing_api "yes")))
           (skipn 26 (Configurator.trace (Runs.run_with Runs.willing_api "yes")))
           (nth 25 (Configurator.trace (Runs.run_with Runs.willing_api "yes"))
                Configurator.Prompted));
    vm_compute; reflexivity.
Defined.

(** ** The configurator: counting the protected branches *)

Section Counting.
Import Configurator Plan.
Variable env : environment.

Lemma accepted_bounds earlier configs :
  0 <= accepted env earlier configs <= Z.of_nat (List.length configs).
Proof.
  revert earlier. induction configs as [|bc rest IH]; intros earlier;
    cbn [accepted List.length]; [lia|].
  destruct (api env earlier (put_protection_request bc)) as [resp|]; [|lia].
  specialize (IH (earlier ++ [put_protection_request bc])).
  destruct (status_code resp =? 200); lia.
Qed.

Lemma apply_protection_count configs : forall success_count t n,
  fst (apply_protection env configs success_count t) = Eff.Ret n ->
  n = success_count + accepted env (sent t) configs.
Proof.
  induction configs as [|[branch config] rest IH]; intros c t n;
    cbn [apply_protection accepted].
  - intros [= <-]. lia.
  - unfold set_branch_protection, Eff.bind, print, Eff.modify, _make_request.
    cbn [fst snd]. rewrite sent_snoc_printed.
    fold (put_protection_request (branch, config)).
    change {| meth := PUT;
              endpoint := "branches/" ++ branch ++ "/protection";
              payload := Some (protection_data branch config) |}
      with (put_protection_request (branch, config)).
    destruct (api env (sent t) (put_protection_request (branch, config)))
      as [resp|]; [|discriminate].
    destruct (status_code resp =? 200); cbn [fst snd sleep Eff.modify Eff.ret].
    + unfold sleep, Eff.modify, Eff.ret. cbn [fst snd].
      intros H. apply IH in H.
      rewrite !sent_app in H. cbn in H. rewrite !app_nil_r in H. lia.
    + unfold Eff.ret. cbn [fst snd].
      intros H. apply IH in H.
      rewrite !sent_app in H. cbn in H. rewrite !app_nil_r in H. lia.
Qed.

End Counting.

(** X12: when the loop over the branches returns, the count of successes
    has grown by the number of branches whose PUT was answered with status
    200, so by at least 0 and at most the number of branches; a PUT
    answered with any other status is counted as a failure and the loop
    goes on to the next branch. *)
Theorem success_count_is_accepted
  (env : Configurator.environment)
  (configs : list (string * Configurator.BranchProtectionConfig))
  (success_count n : Z) (t : Configurator.state) :
  fst (Configurator.apply_protection env configs success_count t) = Eff.Ret n ->
  n = success_count + Plan.accepted env (Configurator.sent t) configs
  /\ success_count <= n <= success_count + Z.of_nat (List.length configs).
Proof.
  intros H. apply apply_protection_count in H.
  pose proof (accepted_bounds env (Configurator.sent t) configs). lia.
Qed.

Lemma success_count_is_accepted_witness :
  2 = 0 + Plan.accepted (Runs.run_with Runs.willing_api "y") []
            Configurator.create_branch_configs
  /\ 0 <= 2 <= 0 + 2.
Proof.
  apply (success_count_is_accepted (Runs.run_with Runs.willing_api "y")
           Configurator.create_branch_configs 0 2 []).
  reflexivity.
Defined.

(** ** The configurator: reading back what was set *)

(** X13: when the read of a branch's protection is answered with status
    200 and the very settings the script PUTs for a configuration, the
    verification reports the branch as protected, with as many status
    checks as the configuration requires, its number of required reviews,
    and its linear-history flag. *)
Theorem verify_reports_configuration
  (env : Configurator.environment) (branch : string)
  (config : Configurator.BranchProtectionConfig)
  (t : Configurator.state) (resp : Configurator.response) :
  Configurator.api env (Configurator.sent t) (Configurator.protection_request branch)
  = Configurator.Response resp ->
  Configurator.status_code resp = 200 ->
  Configurator.json_body resp
  = Some (Configurator.protection_data branch config) ->
  Configurator.verify_branch env branch t
  = (Eff.Ret tt,
     t ++ [Configurator.Sent (Configurator.protection_request branch);
           Configurator.Printed "   {}: Protected" [JStr branch];
           Configurator.Printed "      - Status checks: {}"
             [JInt (Z.of_nat (List.length
                                (Configurator.required_status_checks config)))];
           Configurator.Printed "      - Required reviews: {}"
             [JInt (Configurator.required_approving_review_count config)];
           Configurator.Printed "      - Linear history: {}"
             [JStr (if Configurator.required_linear_history config
                    then "Yes" else "No")%string]]).
Proof.
  intros Hapi Hstatus Hbody.
  unfold Configurator.verify_branch, Configurator.get_branch_protection,
    Eff.bind, Configurator._make_request.
  fold (Configurator.protection_request branch). rewrite Hapi, Hstatus.
  cbn [Z.eqb Pos.eqb]. unfold Configurator.response_json. rewrite Hbody.
  cbn. rewrite length_map. unfold Configurator.print, Eff.modify. cbn.
  rewrite <- !app_assoc. reflexivity.
Qed.

Lemma verify_reports_configuration_witness :
  let env := {| Configurator.GITHUB_TOKEN := Some "ghp_0123456789"%string;
                Configurator.gh_auth_token := Configurator.GhNotFound;
                Configurator.api := fun _ _ =>
                  Runs.ok_response
                    (Some (Configurator.protection_data "develop"
                             Configurator.develop_config));
                Configurator.stdin := Configurator.Line "y" |} in
  Configurator.verify_branch env "develop" []
  = (Eff.Ret tt,
     [Configurator.Sent (Configurator.protection_request "develop");
      Configurator.Printed "   {}: Protected" [JStr "develop"];
      Configurator.Printed "      - Status checks: {}" [JInt 3];
      Configurator.Printed "      - Required reviews: {}" [JInt 1];
      Configurator.Printed "      - Linear history: {}" [JStr "No"]]).
Proof.
  intros env.
  exact (verify_reports_configuration env "develop" Configurator.develop_config
           [] _ eq_refl eq_refl eq_refl).
Defined.

(** ** The configurator: an incomplete answer about the repository *)

Ltac ended_before_prompt :=
  try match goal with
      | |- context [Py.is_Exception ?e] => destruct (Py.is_Exception e)
      end;
  cbn; repeat split; try reflexivity;
  let H := fresh in
  intros H; repeat (destruct H as [H|H]; [discriminate H|]); contradiction.

(** X14: with a token, when the first request is answered with status 200
    but the body does not decode, or decodes to something that lacks one of
    the six fields of the summary (name, stars, forks, default branch,
    private, creation date), the run ends with exit code 1 after that one
    request, before the prompt. *)
Theorem incomplete_repository_info
  (env : Configurator.environment) (resp : Configurator.response) :
  Configurator.env_yields_token env = true
  \/ Configurator.gh_yields_token env = true ->
  Configurator.api env [] Configurator.repo_info_request
  = Configurator.Response resp ->
  Configurator.status_code resp = 200 ->
  (forall repo_info, Configurator.json_body resp = Some repo_info ->
                     Plan.summary_ready repo_info = false) ->
  Configurator.exit_code env = 1
  /\ Configurator.sent (Configurator.trace env) = [Configurator.repo_info_request]
  /\ ~ In Configurator.Prompted (Configurator.trace env).
Proof.
  intros Htok Hapi Hstatus Hbody.
  destruct (token_found env Htok) as (token & Ht).
  unfold Configurator.exit_code, Configurator.trace, Configurator.script,
    Configurator.main, Configurator.prepare,
    Configurator.print_repository_summary,
    Configurator.get_repository_info, Configurator._make_request.
  rewrite Ht. unfold Configurator.repo_info_request in Hapi.
  unfold Eff.bind, Eff.try_except, Eff.ret, Configurator.print, Eff.modify,
    Eff.sys_exit, Configurator.response_json.
  cbn. rewrite Hapi, Hstatus. cbn.
  destruct (Configurator.json_body resp) as [j|]; cbn.
  - specialize (Hbody j eq_refl). unfold Plan.summary_ready in Hbody.
    unfold Eff.raise, Eff.ret.
    destruct (getitem j "full_name") as [e1|v1]; cbn;
      [ended_before_prompt|].
    destruct (getitem j "stargazers_count") as [e2|v2]; cbn;
      [ended_before_prompt|].
    destruct (getitem j "forks_count") as [e3|v3]; cbn;
      [ended_before_prompt|].
    destruct (getitem j "default_branch") as [e4|v4]; cbn;
      [ended_before_prompt|].
    destruct (getitem j "private") as [e5|v5]; cbn;
      [ended_before_prompt|].
    destruct (c <-- getitem j "created_at" ;; Configurator.slice10 c)
      as [e6|v6]; cbn;
      [ended_before_prompt|].
    discriminate Hbody.
  - unfold Eff.raise. cbn. ended_before_prompt.
Qed.

Lemma incomplete_repository_info_witness :
  let env := Runs.run_with
               (fun _ _ => Runs.ok_response
                             (Some (JObj [("full_name", JStr "d-oit/code-guardian")])))
               "y" in
  Configurator.exit_code env = 1
  /\ Configurator.sent (Configurator.trace env) = [Configurator.repo_info_request]
  /\ ~ In Configurator.Prompted (Configurator.trace env).
Proof.
  intros env.
  apply (incomplete_repository_info env
           {| Configurator.status_code := 200;
              Configurator.json_body :=
                Some (JObj [("full_name", JStr "d-oit/code-guardian")]);
              Configurator.text := "" |}).
  - left. reflexivity.
  - reflexivity.
  - reflexivity.
  - intros repo_info [= <-]. reflexivity.
Defined.

(** ** The dashboard: what an answer depends on *)

(** X15: the metrics answer is built from the state in memory and from the
    alert log only: whatever is done to the state file and the directories
    on disk, the answer stays the same until the next load.  (The alerts,
    in contrast, are read from the log at every request.) *)
Theorem metrics_answer_from_memory
  (fromisoformat : string -> option Dashboard.datetime)
  (w : Dashboard.world) (f : Dashboard.fs) :
  Dashboard.alerts_log f = Dashboard.alerts_log (Dashboard.files w) ->
  fst (Dashboard.get_metrics fromisoformat (Dashboard.set_files f w))
  = fst (Dashboard.get_metrics fromisoformat w).
Proof.
  intros Ha.
  unfold Dashboard.get_metrics, Eff.bind, Dashboard.trend, Eff.gets, Eff.ret.
  cbn [Dashboard.data Dashboard.now Dashboard.files Dashboard.set_files].
  assert (Hr : Dashboard.read_alerts f = Dashboard.read_alerts (Dashboard.files w))
    by (unfold Dashboard.read_alerts; now rewrite Ha).
  destruct (Dashboard.get_latest_metrics (Dashboard.data w)); cbn; [reflexivity|].
  repeat match goal with
         | |- context [Dashboard.get_trend_data ?a ?b ?c ?d ?e] =>
             destruct (Dashboard.get_trend_data a b c d e); cbn;
             [reflexivity|]
         end.
  rewrite Hr.
  destruct (get (Dashboard.data w) "consecutive_failures" (JInt 0)); reflexivity.
Qed.

Lemma metrics_answer_from_memory_witness :
  fst (Dashboard.get_metrics Dashboard.fromisoformat_seconds
         (Dashboard.set_files
            {| Dashboard.STATE_FILE :=
                 Dashboard.Holds (Samples.state_with [Samples.naive_entry]);
               Dashboard.alerts_log := Dashboard.NoFile;
               Dashboard.PERFORMANCE_DIR := Dashboard.IsDir;
               Dashboard.DASHBOARD_DIR := Dashboard.IsDir |}
            Samples.fresh_world))
  = fst (Dashboard.get_metrics Dashboard.fromisoformat_seconds Samples.fresh_world).
Proof.
  apply (metrics_answer_from_memory Dashboard.fromisoformat_seconds
           Samples.fresh_world). reflexivity.
Defined.

(** ** The trend: windows and growing histories *)

(** X16: a wider window never loses a point: every point of the trend over
    [hours] hours is a point of the trend over any longer time. *)
Theorem wider_window_keeps_points
  (fromisoformat : string -> option Dashboard.datetime)
  (now hours wider : Z) (metric : string)
  (state : list (string * json)) (history points : list json) (p : json) :
  lookup "metrics_history" state = Some (JArr history) ->
  hours <= wider ->
  Dashboard.get_trend_data fromisoformat now (JObj state) metric hours
  = inr points ->
  In p points ->
  exists points',
    Dashboard.get_trend_data fromisoformat now (JObj state) metric wider
    = inr points'
    /\ In p points'.
Proof.
  intros Hh Hle Hp Hin.
  rewrite (get_trend_data_of_list _ _ _ _ _ _ Hh) in Hp. injection Hp as <-.
  eexists. split; [apply get_trend_data_of_list, Hh|].
  apply in_flat_map in Hin as (entry & He & Hin). apply in_flat_map.
  exists entry. split; [exact He|].
  apply trend_step_point in Hin as (fields & ts & us & H1 & H2 & H3 & H4 & H5).
  apply trend_step_point. exists fields, ts, us.
  repeat split; auto. unfold Dashboard.HOUR_US in *. lia.
Qed.

Lemma wider_window_keeps_points_witness :
  exists points',
    Dashboard.get_trend_data Dashboard.fromisoformat_seconds Samples.noon
      (Samples.state_with [Samples.naive_entry]) "build_time" 48
    = inr points'
    /\ In (JObj [("timestamp", JStr "2026-11-04T11:30:00");
                 ("value", JFloat 95.5)]) points'.
Proof.
  apply (wider_window_keeps_points Dashboard.fromisoformat_seconds
           Samples.noon 1 48 "build_time"
           [("consecutive_failures", JInt 0);
            ("last_successful_run", JStr "2026-11-04T11:30:00Z");
            ("metrics_history", JArr [Samples.naive_entry])]
           [Samples.naive_entry]
           [JObj [("timestamp", JStr "2026-11-04T11:30:00");
                  ("value", JFloat 95.5)]]).
  - reflexivity.
  - lia.
  - vm_compute. reflexivity.
  - now left.
Defined.

(** X17: snapshots appended to the history only append points to the
    trend: the points of the earlier snapshots stay the same, in the same
    order, and at most one point per new snapshot follows them. *)
Theorem trend_of_appended_history
  (fromisoformat : string -> option Dashboard.datetime)
  (now hours : Z) (metric : string)
  (state state' : list (string * json)) (history appended : list json) :
  lookup "metrics_history" state = Some (JArr history) ->
  lookup "metrics_history" state' = Some (JArr (history ++ appended)) ->
  exists points new_points,
    Dashboard.get_trend_data fromisoformat now (JObj state) metric hours
    = inr points
    /\ Dashboard.get_trend_data fromisoformat now (JObj state') metric hours
       = inr (points ++ new_points)
    /\ (List.length new_points <= List.length appended)%nat.
Proof.
  intros Hh Hh'. do 2 eexists. split; [|split].
  - apply get_trend_data_of_list, Hh.
  - rewrite (get_trend_data_of_list _ _ _ _ _ _ Hh'), flat_map_app. reflexivity.
  - apply flat_map_short, trend_step_short.
Qed.

Lemma trend_of_appended_history_witness :
  exists points new_points,
    Dashboard.get_trend_data Dashboard.fromisoformat_seconds Samples.noon
      (Samples.state_with [Samples.naive_entry]) "build_time" 24
    = inr points
    /\ Dashboard.get_trend_data Dashboard.fromisoformat_seconds Samples.noon
         (Samples.state_with [Samples.naive_entry; Samples.utc_entry])
         "build_time" 24
       = inr (points ++ new_points)
    /\ (List.length new_points <= 1)%nat.
Proof.
  apply (trend_of_appended_history Dashboard.fromisoformat_seconds
           Samples.noon 24 "build_time"
           [("consecutive_failures", JInt 0);
            ("last_successful_run", JStr "2026-11-04T11:30:00Z");
            ("metrics_history", JArr [Samples.naive_entry])]
           [("consecutive_failures", JInt 0);
            ("last_successful_run", JStr "2026-11-04T11:30:00Z");
            ("metrics_history", JArr [Samples.naive_entry; Samples.utc_entry])]
           [Samples.naive_entry] [Samples.utc_entry]);
    reflexivity.
Defined.

(** ** The configurator: what exit code 0 means *)

Section Endings.
Import Configurator Plan.
Variable env : environment.

Lemma closes_print text args : closes (Printed text args) (print text args).
Proof. intros t a t' [= _ <-]. eauto. Qed.

Lemma closes_bind {A B} (m : Eff.M state A) (k : A -> Eff.M state B) e :
  (forall a, closes e (k a)) -> closes e (Eff.bind m k).
Proof.
  intros Hk t b t'. unfold Eff.bind.
  destruct (m t) as [[a|x|c] t1]; try discriminate. apply Hk.
Qed.

Lemma closes_apply_changes :
  closes (Printed "Your repository now has enterprise-grade protection!" [])
    (apply_changes env create_branch_configs (map fst create_branch_configs)).
Proof.
  unfold apply_changes.
  repeat (apply closes_bind; intros ?). apply closes_print.
Qed.

(** X18: a run ends with exit code 0 in two ways only.  Either it was
    declined at the prompt: then its last line is the cancellation and its
    requests are the three reads of the preparation.  Or it went through:
    then all nine requests were sent and its last line is the closing
    banner about the repository being protected, whatever the answers to
    the PUTs were. *)
Theorem exit_0_endings :
  exit_code env = 0 ->
  (exists t0,
      trace env = t0 ++ [Printed "Setup cancelled by user." []]
      /\ sent (trace env) = requests_before_prompt)
  \/ (exists t0,
         trace env
         = t0 ++ [Printed "Your repository now has enterprise-grade protection!" []]
         /\ sent (trace env) = planned_requests).
Proof.
  unfold trace, exit_code, script, main, Eff.bind.
  destruct (conducts_prepare env []) as (k1 & Hle & Hs & Hret & Hexit).
  cbn [app] in Hs.
  destruct (prepare env (map fst create_branch_configs) []) as [[u|e|c] t1];
    cbn [fst snd] in *.
  - rewrite (Hret u eq_refl), firstn_all in Hs.
    unfold input. destruct (stdin env) as [s| |].
    + destruct (Py.str_in (Py.lower s) ["y"%string; "yes"%string]); cbn [negb].
      * destruct (conducts_apply_changes env (t1 ++ [Prompted]))
          as (k2 & Hle2 & Hs2 & Hret2 & Hexit2).
        pose proof (closes_apply_changes (t1 ++ [Prompted])) as Hc.
        rewrite sent_snoc_prompted, Hs in Hs2.
        destruct (apply_changes env create_branch_configs
                    (map fst create_branch_configs) (t1 ++ [Prompted]))
          as [[u'|e|c] t2]; cbn [fst snd] in *.
        -- intros _. right. destruct (Hc u' t2 eq_refl) as (t0 & ->).
           exists t0. split; [reflexivity|].
           rewrite Hs2, (Hret2 u' eq_refl), firstn_all. reflexivity.
        -- destruct (Py.is_Exception e); discriminate.
        -- rewrite (Hexit2 c eq_refl). discriminate.
      * intros _. left. cbn [fst snd].
        unfold print, Eff.modify, Eff.sys_exit. cbn [fst snd].
        eexists. split; [reflexivity|].
        now rewrite sent_snoc_printed, sent_snoc_prompted.
    + cbn. discriminate.
    + cbn. discriminate.
  - destruct (Py.is_Exception e); discriminate.
  - rewrite (Hexit c eq_refl). discriminate.
Qed.

End Endings.

Lemma exit_0_endings_witness :
  (exists t0,
      Configurator.trace (Runs.run_with Plan.refusing_api "y")
      = t0 ++ [Configurator.Printed "Setup cancelled by user." []]
      /\ Configurator.sent (Configurator.trace (Runs.run_with Plan.refusing_api "y"))
         = Plan.requests_before_prompt)
  \/ (exists t0,
         Configurator.trace (Runs.run_with Plan.refusing_api "y")
         = t0 ++ [Configurator.Printed
                    "Your repository now has enterprise-grade protection!" []]
         /\ Configurator.sent
              (Configurator.trace (Runs.run_with Plan.refusing_api "y"))
            = Plan.planned_requests).
Proof.
  apply (exit_0_endings (Runs.run_with Plan.refusing_api "y")).
  vm_compute. reflexivity.
Defined.
